(** * Kanban board: drag-and-drop controller, derived views and modal forms

    A shallow embedding of the board component ([KanbanBoard]), of the
    create form ([AddTaskModal]) and of the detail form ([TaskModal]),
    followed by the properties of the filter, the grouping, the drag
    handlers and the two forms.

    Conventions of the embedding:
    - a JavaScript string is a [string], read as its UTF-8 bytes; the
      built-ins [toLowerCase] and [trim] are parameters of the components
      ([Builtins]), so that what is proved holds for the functions of the
      engine, and [textBuiltins] is the instance examples are evaluated with;
    - a [Date] is its epoch value in milliseconds, a [number] is an IEEE-754
      value ([spec_float]), so that [NaN > 0] is false as in the source;
    - React state is a record passed through the handlers; what a handler does
      to the outside (host callbacks, [console.error], [alert]) is the list of
      [Effect]s it returns, in order;
    - a host callback is a function to the [Outcome] of awaiting it. *)

From Stdlib Require Import ZArith Floats.SpecFloat.
From stdpp Require Import base gmap strings list pretty.


(** ** String primitives used by the components *)

(** [hay.includes(needle)]: [needle] occurs in [hay] as a contiguous run. *)
Fixpoint includes (hay needle : string) : bool :=
  String.prefix needle hay ||
  match hay with
  | EmptyString => false
  | String _ r => includes r needle
  end.

(** The built-ins [String.prototype.toLowerCase] and [String.prototype.trim].
    Which characters they fold and strip is laid down in the Unicode tables of
    the engine, which are no part of the repository. The components are
    therefore modelled over any two functions of which the first keeps the
    empty string empty, and every property that involves them is proved for
    all such functions. *)
Class Builtins := {
  toLowerCase : string -> string;
  trim : string -> string;
  toLowerCase_empty : toLowerCase EmptyString = EmptyString
}.

(** *** An instance to evaluate examples with *)

Definition byteIs (n : nat) (c : Ascii.ascii) : bool :=
  (Ascii.nat_of_ascii c =? n)%nat.

Definition lowerAscii (c : Ascii.ascii) : Ascii.ascii :=
  let n := Ascii.nat_of_ascii c in
  if (65 <=? n)%nat && (n <=? 90)%nat then Ascii.ascii_of_nat (n + 32) else c.

(** The second byte of a capital letter of Latin-1 (U+00C0 to U+00DE
    without the multiplication sign U+00D7); the first byte is 195. *)
Definition latinCapital (d : Ascii.ascii) : bool :=
  let n := Ascii.nat_of_ascii d in
  (128 <=? n)%nat && (n <=? 158)%nat && negb (n =? 151)%nat.

(** Folds the capital letters of Basic Latin and of Latin-1; it agrees with
    the built-in on text that has no capital letter outside these. *)
Fixpoint toLowerCaseLatin (s : string) : string :=
  match s with
  | EmptyString => EmptyString
  | String c r =>
      match r with
      | String d r' =>
          if byteIs 195 c && latinCapital d then
            String c (String (Ascii.ascii_of_nat (Ascii.nat_of_ascii d + 32))
                             (toLowerCaseLatin r'))
          else String (lowerAscii c) (toLowerCaseLatin r)
      | EmptyString => String (lowerAscii c) EmptyString
      end
  end.

Definition bytes (l : list nat) : string :=
  String.string_of_list_ascii (map Ascii.ascii_of_nat l).

(** The white space and line terminators [trim] strips: U+0009 to U+000D,
    U+0020, U+00A0, U+1680, U+2000 to U+200A, U+2028, U+2029, U+202F,
    U+205F, U+3000 and U+FEFF. *)
Definition whiteSpace : list string :=
  map bytes
    [ [9]; [10]; [11]; [12]; [13]; [32]; [194; 160]; [225; 154; 128];
      [226; 128; 128]; [226; 128; 129]; [226; 128; 130]; [226; 128; 131];
      [226; 128; 132]; [226; 128; 133]; [226; 128; 134]; [226; 128; 135];
      [226; 128; 136]; [226; 128; 137]; [226; 128; 138]; [226; 128; 168];
      [226; 128; 169]; [226; 128; 175]; [226; 129; 159]; [227; 128; 128];
      [239; 187; 191] ].

(** [Some rest] when [s] is [pre] followed by [rest]. *)
Fixpoint dropPrefix (pre s : string) : option string :=
  match pre with
  | EmptyString => Some s
  | String a pre' =>
      match s with
      | String b s' => if Ascii.eqb a b then dropPrefix pre' s' else None
      | EmptyString => None
      end
  end.

Fixpoint dropOne (ws : list string) (s : string) : option string :=
  match ws with
  | [] => None
  | w :: ws' =>
      match dropPrefix w s with
      | Some r => Some r
      | None => dropOne ws' s
      end
  end.

(** Drops leading members of [ws], at most [fuel] of them. *)
Fixpoint dropLeading (ws : list string) (fuel : nat) (s : string) : string :=
  match fuel with
  | O => s
  | S n =>
      match dropOne ws s with
      | Some r => dropLeading ws n r
      | None => s
      end
  end.

Definition trimStart (s : string) : string :=
  dropLeading whiteSpace (String.length s) s.

Definition trimEnd (s : string) : string :=
  String.rev (dropLeading (map String.rev whiteSpace) (String.length s)
                          (String.rev s)).

Definition trimText (s : string) : string := trimEnd (trimStart s).

#[global] Instance textBuiltins : Builtins :=
  {| toLowerCase := toLowerCaseLatin;
     trim := trimText;
     toLowerCase_empty := eq_refl |}.

(** Truthiness of a string ([!s] is its negation): only the empty string is falsy. *)
Definition truthy (s : string) : bool :=
  match s with EmptyString => false | String _ _ => true end.

(** Truthiness of an optional string: [undefined] and the empty string are falsy. *)
Definition truthyOpt (s : option string) : bool :=
  match s with None => false | Some s => truthy s end.

(** [new Set(xs)] read back with [Array.from]: every value once, at the
    place of its first occurrence. [setAdd] is [Set.prototype.add]. *)
Definition setAdd {A} `{EqDecision A} (s : list A) (x : A) : list A :=
  if bool_decide (x ∈ s) then s else s ++ [x].

Definition newSet {A} `{EqDecision A} (xs : list A) : list A :=
  fold_left setAdd xs [].

(** ** The data model (types.ts) *)

Inductive Priority := lowest | low | medium | high | highest.
Inductive IssueType := issue_task | issue_bug | issue_story | issue_epic.
Inductive Status := todo | in_progress | in_review | done.

Definition Date := Z.
Definition number := spec_float.

Record Label := mkLabel {
  label_id : string;
  label_name : string;
  label_color : string
}.

Record Comment := mkComment {
  comment_id : string;
  comment_author : string;
  comment_content : string;
  comment_timestamp : Date
}.

Record Task := mkTask {
  task_id : string;
  task_title : string;
  task_description : string;
  task_status : Status;
  task_priority : Priority;
  task_type : IssueType;
  task_assignee : option string;
  task_reporter : string;
  task_labels : list Label;
  task_comments : list Comment;
  task_createdAt : Date;
  task_updatedAt : Date;
  task_estimate : option number;
  task_timeSpent : option number;
  task_dueDate : option Date
}.

#[global] Instance Priority_eq_dec : EqDecision Priority.
Proof. solve_decision. Defined.
#[global] Instance IssueType_eq_dec : EqDecision IssueType.
Proof. solve_decision. Defined.
#[global] Instance Status_eq_dec : EqDecision Status.
Proof. solve_decision. Defined.

Definition Status_to_nat (s : Status) : nat :=
  match s with todo => 0 | in_progress => 1 | in_review => 2 | done => 3 end.

Definition Status_of_nat (n : nat) : Status :=
  match n with 0 => todo | 1 => in_progress | 2 => in_review | _ => done end.

#[global] Instance Status_countable : Countable Status.
Proof.
  apply (inj_countable' Status_to_nat Status_of_nat).
  intros []; reflexivity.
Defined.

(** The string a [Status] is at run time. *)
Definition statusId (s : Status) : string :=
  match s with
  | todo => "todo"
  | in_progress => "in-progress"
  | in_review => "in-review"
  | done => "done"
  end.

(** ** Drag events (the part of @dnd-kit/core the board reads) *)

(** [UniqueIdentifier = string | number] *)
Inductive UniqueIdentifier :=
| IdString (s : string)
| IdNumber (n : Z).

(** [t.id === u] for a string [t.id]: a number is never equal to it. *)
Definition idIs (u : UniqueIdentifier) (s : string) : bool :=
  match u with
  | IdString s' => bool_decide (s' = s)
  | IdNumber _ => false
  end.

Record DragStartEvent := mkDragStart { start_active : UniqueIdentifier }.

Record DragEndEvent := mkDragEnd {
  active : UniqueIdentifier;
  over : option UniqueIdentifier
}.

(** ** Host callbacks and what a handler does to the outside *)

(** Awaiting [void | Promise<void>]: it returns, it throws before returning,
    or the promise rejects. *)
Inductive Outcome :=
| Fulfilled
| Threw (error : string)
| Rejected (error : string).

Inductive Effect :=
| CallTaskCreate (t : Task)
| CallTaskUpdate (t : Task)
| CallTaskDelete (taskId : string)
| CallTaskMove (taskId : string) (newStatus oldStatus : Status)
| ConsoleError (msg : string) (error : string)
| Alert (msg : string).

(** [try { await call } catch (error) { console.error(msg, error) }] *)
Definition tryAwait (call : Effect) (res : Outcome) (msg : string) : list Effect :=
  match res with
  | Fulfilled => [call]
  | Threw e | Rejected e => [call; ConsoleError msg e]
  end.

Definition isHostCall (e : Effect) : bool :=
  match e with
  | CallTaskCreate _ | CallTaskUpdate _ | CallTaskDelete _ | CallTaskMove _ _ _ => true
  | ConsoleError _ _ | Alert _ => false
  end.

Definition isMoveCall (e : Effect) : bool :=
  match e with CallTaskMove _ _ _ => true | _ => false end.

(** [tasks.find((t) => t.id === u)] *)
Definition findTask (tasks : list Task) (u : UniqueIdentifier) : option Task :=
  List.find (fun t => idIs u (task_id t)) tasks.

(** ** AddTaskModal *)

Module AddTaskModal.

(** The [useState] cells of the form. *)
Record Form := mkForm {
  title : string;
  description : string;
  priority : Priority;
  type : IssueType;
  assignee : string;
  estimate : number;
  selectedLabels : list Label
}.

(** [useState] initial values. *)
Definition initialForm : Form :=
  {| title := EmptyString; description := EmptyString; priority := medium;
     type := issue_task; assignee := EmptyString; estimate := S754_zero false;
     selectedLabels := [] |}.

(** What the form does with its props and the browser. *)
Inductive Emit :=
| WindowAlert (msg : string)
| OnAdd (t : Task)
| OnClose.

(** [handleSubmit]; [clock k] is the [k]-th reading of the system time
    ([Date.now()], then the two [new Date()]). [e.preventDefault()] only
    concerns the browser and is left out. *)
Definition handleSubmit {JS : Builtins} (status : Status) (f : Form) (clock : nat -> Date)
  : list Emit :=
  if negb (truthy (trim (title f))) then
    [WindowAlert "Title is required"]
  else
    let newTask :=
      {| task_id := "task-" +:+ pretty (clock 0%nat);
         task_title := trim (title f);
         task_description := trim (description f);
         task_status := status;
         task_priority := priority f;
         task_type := type f;
         task_assignee :=
           (let a := trim (assignee f) in if truthy a then Some a else None);
         task_reporter := "Current User";
         task_labels := selectedLabels f;
         task_comments := [];
         task_createdAt := clock 1%nat;
         task_updatedAt := clock 2%nat;
         task_estimate :=
           (if SFltb (S754_zero false) (estimate f) then Some (estimate f)
            else None);
         task_timeSpent := Some (S754_zero false);
         task_dueDate := None |} in
    [OnAdd newTask; OnClose].

(** [toggleLabel], the updater it gives [setSelectedLabels]. *)
Definition toggleLabel (prev : list Label) (label : Label) : list Label :=
  if existsb (fun l => bool_decide (label_id l = label_id label)) prev then
    List.filter (fun l => negb (bool_decide (label_id l = label_id label))) prev
  else prev ++ [label].

End AddTaskModal.

(** ** TaskModal *)

Module TaskModal.

(** [Partial<Task>]: [None] is a key that is not in the object. For the
    optional fields of [Task] a key can be there with the value
    [undefined] ([Some None]), as in [handleUpdate({ dueDate: undefined })]. *)
Record PartialTask := mkPartial {
  id : option string;
  title : option string;
  description : option string;
  status : option Status;
  priority : option Priority;
  type : option IssueType;
  assignee : option (option string);
  reporter : option string;
  labels : option (list Label);
  comments : option (list Comment);
  createdAt : option Date;
  updatedAt : option Date;
  estimate : option (option number);
  timeSpent : option (option number);
  dueDate : option (option Date)
}.

Definition noUpdates : PartialTask :=
  mkPartial None None None None None None None None None None None None
            None None None.

(** One key of [{ ...a, ...b }]. *)
Definition spread {A} (a : A) (b : option A) : A := default a b.

(** [{ ...editedTask, ...updates, updatedAt: new Date() }] *)
Definition merged (editedTask : Task) (updates : PartialTask) (now : Date) : Task :=
  {| task_id := spread (task_id editedTask) (id updates);
     task_title := spread (task_title editedTask) (title updates);
     task_description := spread (task_description editedTask) (description updates);
     task_status := spread (task_status editedTask) (status updates);
     task_priority := spread (task_priority editedTask) (priority updates);
     task_type := spread (task_type editedTask) (type updates);
     task_assignee := spread (task_assignee editedTask) (assignee updates);
     task_reporter := spread (task_reporter editedTask) (reporter updates);
     task_labels := spread (task_labels editedTask) (labels updates);
     task_comments := spread (task_comments editedTask) (comments updates);
     task_createdAt := spread (task_createdAt editedTask) (createdAt updates);
     task_updatedAt := now;
     task_estimate := spread (task_estimate editedTask) (estimate updates);
     task_timeSpent := spread (task_timeSpent editedTask) (timeSpent updates);
     task_dueDate := spread (task_dueDate editedTask) (dueDate updates) |}.

(** [handleUpdate]: the new [editedTask] state and the task handed to
    [onUpdate]. *)
Definition handleUpdate (editedTask : Task) (updates : PartialTask) (now : Date)
  : Task * Task :=
  let updated := merged editedTask updates now in
  (updated, updated).

(** The [useState] cells of the detail form. *)
Record State := mkState {
  editedTask : Task;
  newComment : string;
  isEditing : bool
}.

(** What the detail form does with its props. *)
Inductive Emit :=
| OnUpdate (t : Task)
| OnDelete (taskId : string)
| OnClose.

(** [handleUpdate] on the state of the form. *)
Definition update (st : State) (updates : PartialTask) (now : Date)
  : State * list Emit :=
  let '(edited, emitted) := handleUpdate (editedTask st) updates now in
  (mkState edited (newComment st) (isEditing st), [OnUpdate emitted]).

(** The change set [{ comments: cs }]. *)
Definition commentsOnly (cs : list Comment) : PartialTask :=
  mkPartial None None None None None None None None None (Some cs) None None
            None None None.

(** The change set [{ labels: ls }]. *)
Definition labelsOnly (ls : list Label) : PartialTask :=
  mkPartial None None None None None None None None (Some ls) None None None
            None None None.

(** [handleAddComment]; the clock is read for the id of the comment, for
    its time stamp and, in [handleUpdate], for [updatedAt]. *)
Definition handleAddComment {JS : Builtins} (st : State) (clock : nat -> Date)
  : State * list Emit :=
  if negb (truthy (trim (newComment st))) then (st, [])
  else
    let comment :=
      {| comment_id := "c" +:+ pretty (clock 0%nat);
         comment_author := "Current User";
         comment_content := newComment st;
         comment_timestamp := clock 1%nat |} in
    let '(st', out) :=
      update st (commentsOnly (task_comments (editedTask st) ++ [comment]))
             (clock 2%nat) in
    (mkState (editedTask st') EmptyString (isEditing st'), out).

(** The [onClick] of a label button. *)
Definition labelClick (st : State) (label : Label) (now : Date)
  : State * list Emit :=
  let isSelected :=
    existsb (fun l => bool_decide (label_id l = label_id label))
            (task_labels (editedTask st)) in
  let newLabels :=
    if isSelected then
      List.filter (fun l => negb (bool_decide (label_id l = label_id label)))
                  (task_labels (editedTask st))
    else task_labels (editedTask st) ++ [label] in
  update st (labelsOnly newLabels) now.

(** The [onClick] of the delete button; [confirmed] is what
    [window.confirm] returns and [task] is the prop of the form. *)
Definition deleteClick (task : Task) (confirmed : bool) : list Emit :=
  if confirmed then [OnDelete (task_id task); OnClose] else [].

End TaskModal.

(** ** KanbanBoard *)

Module KanbanBoard.

Record Column := mkColumn { col_id : Status; col_title : string }.

(** The module constant [columns]: the default four columns. *)
Definition columns : list Column :=
  [ mkColumn todo "To Do"; mkColumn in_progress "In Progress";
    mkColumn in_review "In Review"; mkColumn done "Done" ].

Inductive ViewMode := board | listView.

(** [A | 'all'], the type of the priority and type selectors. *)
Inductive OrAll (A : Type) := all | only (a : A).
Arguments all {A}.
Arguments only {A} a.

(** The props the logic reads; a flag the host leaves out is [true]. *)
Record Props := mkProps {
  tasks : list Task;
  onTaskCreate : option (Task -> Outcome);
  onTaskUpdate : option (Task -> Outcome);
  onTaskDelete : option (string -> Outcome);
  onTaskMove : option (string -> Status -> Status -> Outcome);
  customColumns : option (list Column);
  enableSearch : bool;
  enableFilters : bool;
  enableViewToggle : bool;
  enableCreateTask : bool
}.

(** The [useState] cells of the board. *)
Record State := mkState {
  activeTask : option Task;
  selectedTask : option Task;
  isAddTaskModalOpen : bool;
  addTaskStatus : Status;
  searchQuery : string;
  filterPriority : OrAll Priority;
  filterType : OrAll IssueType;
  filterAssignee : string;
  viewMode : ViewMode
}.

Definition initialState : State :=
  mkState None None false todo EmptyString all all "all" board.

Definition setActiveTask (v : option Task) (st : State) : State :=
  mkState v (selectedTask st) (isAddTaskModalOpen st) (addTaskStatus st)
          (searchQuery st) (filterPriority st) (filterType st)
          (filterAssignee st) (viewMode st).

Definition setSelectedTask (v : option Task) (st : State) : State :=
  mkState (activeTask st) v (isAddTaskModalOpen st) (addTaskStatus st)
          (searchQuery st) (filterPriority st) (filterType st)
          (filterAssignee st) (viewMode st).

Definition setIsAddTaskModalOpen (v : bool) (st : State) : State :=
  mkState (activeTask st) (selectedTask st) v (addTaskStatus st)
          (searchQuery st) (filterPriority st) (filterType st)
          (filterAssignee st) (viewMode st).

Definition setAddTaskStatus (v : Status) (st : State) : State :=
  mkState (activeTask st) (selectedTask st) (isAddTaskModalOpen st) v
          (searchQuery st) (filterPriority st) (filterType st)
          (filterAssignee st) (viewMode st).

(** [customColumns || columns]: an array, even an empty one, is truthy. *)
Definition boardColumns (p : Props) : list Column :=
  match customColumns p with
  | Some cs => cs
  | None => columns
  end.

(** *** The derived views *)

(** [sel === 'all' || v === sel] *)
Definition selects {A} `{EqDecision A} (sel : OrAll A) (v : A) : bool :=
  match sel with
  | all => true
  | only a => bool_decide (v = a)
  end.

(** [task.assignee === filterAssignee] *)
Definition assigneeIs (a : option string) (sel : string) : bool :=
  match a with
  | Some s => bool_decide (s = sel)
  | None => false
  end.

Definition matchesSearch {JS : Builtins} (p : Props) (st : State) (t : Task) : bool :=
  negb (enableSearch p)
  || includes (toLowerCase (task_title t)) (toLowerCase (searchQuery st))
  || includes (toLowerCase (task_description t)) (toLowerCase (searchQuery st))
  || includes (toLowerCase (task_id t)) (toLowerCase (searchQuery st)).

Definition matchesPriority (p : Props) (st : State) (t : Task) : bool :=
  negb (enableFilters p) || selects (filterPriority st) (task_priority t).

Definition matchesType (p : Props) (st : State) (t : Task) : bool :=
  negb (enableFilters p) || selects (filterType st) (task_type t).

Definition matchesAssignee (p : Props) (st : State) (t : Task) : bool :=
  negb (enableFilters p)
  || bool_decide (filterAssignee st = "all")
  || (bool_decide (filterAssignee st = "unassigned")
      && negb (truthyOpt (task_assignee t)))
  || assigneeIs (task_assignee t) (filterAssignee st).

(** The callback of [tasks.filter]. *)
Definition keeps {JS : Builtins} (p : Props) (st : State) (t : Task) : bool :=
  matchesSearch p st t && matchesPriority p st t && matchesType p st t
  && matchesAssignee p st t.

Definition filteredTasks {JS : Builtins} (p : Props) (st : State) : list Task :=
  List.filter (keeps p st) (tasks p).

(** The literal the grouping starts from. *)
Definition emptyGroups : gmap Status (list Task) :=
  <[todo := []]> (<[in_progress := []]> (<[in_review := []]> (<[done := []]> ∅))).

(** The body of the [forEach]: [if (grouped[s]) grouped[s].push(task)]. *)
Definition pushTask (grouped : gmap Status (list Task)) (t : Task)
  : gmap Status (list Task) :=
  match grouped !! task_status t with
  | Some g => <[task_status t := g ++ [t]]> grouped
  | None => grouped
  end.

Definition tasksByStatus (filtered : list Task) : gmap Status (list Task) :=
  fold_left pushTask filtered emptyGroups.

(** [tasksByStatus[column.id] || []], the tasks a rendered column gets. *)
Definition columnTasks (grouped : gmap Status (list Task)) (c : Column)
  : list Task :=
  default [] (grouped !! col_id c).

(** What the board shows: one entry per configured column, in order. *)
Definition renderedColumns {JS : Builtins} (p : Props) (st : State) : list (Column * list Task) :=
  map (fun c => (c, columnTasks (tasksByStatus (filteredTasks p st)) c))
      (boardColumns p).

(** *** The drag handlers *)

Definition handleDragStart (p : Props) (st : State) (event : DragStartEvent)
  : State :=
  setActiveTask (findTask (tasks p) (start_active event)) st.

(** The local constant of [handleDragEnd]. *)
Definition validStatuses : list Status := [todo; in_progress; in_review; done].

(** [validStatuses.includes(over.id as Status)] and, when it holds, the
    status [over.id] is. *)
Definition asStatus (u : UniqueIdentifier) : option Status :=
  List.find (fun s => idIs u (statusId s)) validStatuses.

(** The block that assigns [newStatus]; [None] is its early [return]. *)
Definition resolveNewStatus (tasks : list Task) (overId : UniqueIdentifier)
  : option Status :=
  match asStatus overId with
  | Some s => Some s
  | None =>
      match findTask tasks overId with
      | None => None
      | Some droppedOnTask => Some (task_status droppedOnTask)
      end
  end.

Definition handleDragEnd (p : Props) (st : State) (event : DragEndEvent)
  : State * list Effect :=
  let st := setActiveTask None st in
  match over event with
  | None => (st, [])
  | Some overId =>
      match active event with
      | IdNumber _ => (st, [])      (* no [t.id] is a number *)
      | IdString taskId =>
          match findTask (tasks p) (IdString taskId) with
          | None => (st, [])
          | Some task =>
              match resolveNewStatus (tasks p) overId with
              | None => (st, [])
              | Some newStatus =>
                  if bool_decide (task_status task = newStatus) then (st, [])
                  else
                    let oldStatus := task_status task in
                    match onTaskMove p with
                    | None => (st, [])
                    | Some cb =>
                        (st, tryAwait (CallTaskMove taskId newStatus oldStatus)
                                      (cb taskId newStatus oldStatus)
                                      "Error moving task:")
                    end
              end
          end
      end
  end.

(** A whole gesture: the drag starts on [a] and ends over [o]. *)
Definition dragGesture (p : Props) (st : State) (a : UniqueIdentifier)
    (o : option UniqueIdentifier) : State * list Effect :=
  handleDragEnd p (handleDragStart p st (mkDragStart a)) (mkDragEnd a o).

(** *** The create, update and delete entry points *)

Definition handleTaskUpdate (p : Props) (st : State) (updatedTask : Task)
  : State * list Effect :=
  match onTaskUpdate p with
  | Some cb =>
      match cb updatedTask with
      | Fulfilled => (setSelectedTask (Some updatedTask) st, [CallTaskUpdate updatedTask])
      | Threw e | Rejected e =>
          (st, [CallTaskUpdate updatedTask; ConsoleError "Error updating task:" e])
      end
  | None => (setSelectedTask (Some updatedTask) st, [])
  end.

Definition handleTaskDelete (p : Props) (st : State) (taskId : string)
  : State * list Effect :=
  match onTaskDelete p with
  | Some cb => (st, tryAwait (CallTaskDelete taskId) (cb taskId) "Error deleting task:")
  | None => (st, [])
  end.

Definition handleAddTask (st : State) (status : Status) : State :=
  setIsAddTaskModalOpen true (setAddTaskStatus status st).

Definition handleTaskAdded (p : Props) (st : State) (newTask : Task)
  : State * list Effect :=
  match onTaskCreate p with
  | Some cb => (st, tryAwait (CallTaskCreate newTask) (cb newTask) "Error creating task:")
  | None => (st, [])
  end.

(** The props the board gives the create form: [onAdd={handleTaskAdded}],
    [onClose={() => setIsAddTaskModalOpen(false)}]. *)
Definition onAddTaskModal (p : Props) (acc : State * list Effect)
    (e : AddTaskModal.Emit) : State * list Effect :=
  let '(st, log) := acc in
  match e with
  | AddTaskModal.WindowAlert msg => (st, log ++ [Alert msg])
  | AddTaskModal.OnAdd t =>
      let '(st', log') := handleTaskAdded p st t in (st', log ++ log')
  | AddTaskModal.OnClose => (setIsAddTaskModalOpen false st, log)
  end.

(** Submitting the create form as the board renders it, with
    [status={addTaskStatus}]. *)
Definition submitAddTask {JS : Builtins} (p : Props) (st : State) (f : AddTaskModal.Form)
    (clock : nat -> Date) : State * list Effect :=
  fold_left (onAddTaskModal p)
            (AddTaskModal.handleSubmit (addTaskStatus st) f clock) (st, []).

(** *** The header: assignee options, filter count, statistics *)

Definition setFilterPriority (v : OrAll Priority) (st : State) : State :=
  mkState (activeTask st) (selectedTask st) (isAddTaskModalOpen st)
          (addTaskStatus st) (searchQuery st) v (filterType st)
          (filterAssignee st) (viewMode st).

Definition setFilterType (v : OrAll IssueType) (st : State) : State :=
  mkState (activeTask st) (selectedTask st) (isAddTaskModalOpen st)
          (addTaskStatus st) (searchQuery st) (filterPriority st) v
          (filterAssignee st) (viewMode st).

Definition setFilterAssignee (v : string) (st : State) : State :=
  mkState (activeTask st) (selectedTask st) (isAddTaskModalOpen st)
          (addTaskStatus st) (searchQuery st) (filterPriority st)
          (filterType st) v (viewMode st).

(** The [useMemo] of [assignees]: [filter(Boolean)] leaves the strings that
    are not empty, which is what the cast to [string[]] relies on. *)
Definition assignees (p : Props) : list string :=
  omap id (newSet (List.filter truthyOpt (map task_assignee (tasks p)))).

(** [sel !== 'all'] *)
Definition notAll {A} (sel : OrAll A) : bool :=
  match sel with all => false | only _ => true end.

Definition activeFiltersCount (st : State) : nat :=
  length (List.filter id
            [ notAll (filterPriority st); notAll (filterType st);
              negb (bool_decide (filterAssignee st = "all")) ]).

(** The [onClick] of the "Clear" button. *)
Definition clearFilters (st : State) : State :=
  setFilterAssignee "all" (setFilterType all (setFilterPriority all st)).

(** [tasksByStatus[col.id]?.length || 0], the count shown for a column. *)
Definition columnStat (grouped : gmap Status (list Task)) (c : Column) : nat :=
  match grouped !! col_id c with
  | Some g => length g
  | None => 0
  end.

(** The statistics row: the total, then one count per configured column. *)
Definition stats {JS : Builtins} (p : Props) (st : State) : nat * list nat :=
  (length (filteredTasks p st),
   map (columnStat (tasksByStatus (filteredTasks p st))) (boardColumns p)).

(** *** The detail form as the board renders it *)

Definition handleTaskClick (st : State) (task : Task) : State :=
  setSelectedTask (Some task) st.

(** The props the board gives the detail form: [onUpdate={handleTaskUpdate}],
    [onDelete={handleTaskDelete}], [onClose={() => setSelectedTask(null)}]. *)
Definition onTaskModal (p : Props) (acc : State * list Effect)
    (e : TaskModal.Emit) : State * list Effect :=
  let '(st, log) := acc in
  match e with
  | TaskModal.OnUpdate t =>
      let '(st', log') := handleTaskUpdate p st t in (st', (log ++ log')%list)
  | TaskModal.OnDelete taskId =>
      let '(st', log') := handleTaskDelete p st taskId in (st', (log ++ log')%list)
  | TaskModal.OnClose => (setSelectedTask None st, log)
  end.

Definition runTaskModal (p : Props) (st : State) (es : list TaskModal.Emit)
  : State * list Effect :=
  fold_left (onTaskModal p) es (st, []).

End KanbanBoard.

(** ** The example host (App.tsx) *)

Module App.

(** [{ ...task, status: newStatus, updatedAt: new Date() }] *)
Definition moved (task : Task) (newStatus : Status) (now : Date) : Task :=
  {| task_id := task_id task; task_title := task_title task;
     task_description := task_description task; task_status := newStatus;
     task_priority := task_priority task; task_type := task_type task;
     task_assignee := task_assignee task; task_reporter := task_reporter task;
     task_labels := task_labels task; task_comments := task_comments task;
     task_createdAt := task_createdAt task; task_updatedAt := now;
     task_estimate := task_estimate task; task_timeSpent := task_timeSpent task;
     task_dueDate := task_dueDate task |}.

(** [prev.map(t => t.id === id ? by : t)] *)
Definition replaceById (id : string) (by_ : Task) (prev : list Task) : list Task :=
  map (fun t => if bool_decide (task_id t = id) then by_ else t) prev.

(** [prev.filter(t => t.id !== id)] *)
Definition removeById (id : string) (prev : list Task) : list Task :=
  List.filter (fun t => negb (bool_decide (task_id t = id))) prev.

(** The handlers, as the updater each gives [setTasks]. Nothing in their
    [try] blocks throws (the requests are commented out), so the [catch]
    blocks are not reached and the promises are fulfilled. *)
Definition handleTaskCreate (prev : list Task) (newTask : Task) : list Task :=
  (prev ++ [newTask])%list.

Definition handleTaskUpdate (prev : list Task) (updatedTask : Task) : list Task :=
  replaceById (task_id updatedTask) updatedTask prev.

Definition handleTaskDelete (prev : list Task) (taskId : string) : list Task :=
  removeById taskId prev.

(** [handleTaskMove]; [tasks] is the state the handler closed over and
    [prev] the state the updater is applied to. *)
Definition handleTaskMove (tasks prev : list Task) (taskId : string)
    (newStatus oldStatus : Status) (now : Date) : list Task :=
  match findTask tasks (IdString taskId) with
  | None => prev
  | Some task => replaceById taskId (moved task newStatus now) prev
  end.

(** The props [App] gives the board. *)
Definition boardProps (tasks : list Task) : KanbanBoard.Props :=
  {| KanbanBoard.tasks := tasks;
     KanbanBoard.onTaskCreate := Some (fun _ => Fulfilled);
     KanbanBoard.onTaskUpdate := Some (fun _ => Fulfilled);
     KanbanBoard.onTaskDelete := Some (fun _ => Fulfilled);
     KanbanBoard.onTaskMove := Some (fun _ _ _ => Fulfilled);
     KanbanBoard.customColumns := None;
     KanbanBoard.enableSearch := true; KanbanBoard.enableFilters := true;
     KanbanBoard.enableViewToggle := true; KanbanBoard.enableCreateTask := true |}.

(** What one call of the board does to the state of [App]; the handlers
    were made at the render that saw [tasks]. *)
Definition react (tasks : list Task) (now : Date) (prev : list Task) (e : Effect)
  : list Task :=
  match e with
  | CallTaskCreate t => handleTaskCreate prev t
  | CallTaskUpdate t => handleTaskUpdate prev t
  | CallTaskDelete taskId => handleTaskDelete prev taskId
  | CallTaskMove taskId newStatus oldStatus =>
      handleTaskMove tasks prev taskId newStatus oldStatus now
  | ConsoleError _ _ | Alert _ => prev
  end.

(** The state of [App] after the board has handled an event with the
    effects [log]. *)
Definition after (tasks : list Task) (now : Date) (log : list Effect) : list Task :=
  fold_left (react tasks now) log tasks.

End App.

(** ** The REST hook with optimistic updates (api-examples.ts) *)

Module RestAPI.

(** What [await response.json()] gives. *)
Inductive Body :=
| Json (t : Task)
| Malformed (message : string).

(** What [await fetch(...)] gives: it throws, or there is a response. *)
Inductive Fetch :=
| NetworkError (message : string)
| Response (ok : bool) (body : Body).

(** The [useState] cells of the hook. *)
Record Hook := mkHook {
  tasks : list Task;
  loading : bool;
  error : option string
}.

Definition setTasks (f : list Task -> list Task) (h : Hook) : Hook :=
  mkHook (f (tasks h)) (loading h) (error h).

Definition setError (m : string) (h : Hook) : Hook :=
  mkHook (tasks h) (loading h) (Some m).

(** What the [try] block of an operation comes to: the task the server
    answered with, or the message of the error thrown. [wantBody] is false
    for the operations that do not read the body. *)
Definition attempt (res : Fetch) (failed : string) (wantBody : bool)
  : option Task + string :=
  match res with
  | NetworkError m => inr m
  | Response false _ => inr failed
  | Response true body =>
      if wantBody then
        match body with
        | Json t => inl (Some t)
        | Malformed m => inr m
        end
      else inl None
  end.

(** [createTask]: the state after the call, with no other update in
    between, and how the promise settles. *)
Definition createTask (h : Hook) (newTask : Task) (res : Fetch) : Hook * Outcome :=
  let h1 := setTasks (fun prev => (prev ++ [newTask])%list) h in
  match attempt res "Failed to create task" true with
  | inl (Some createdTask) =>
      (setTasks (App.replaceById (task_id newTask) createdTask) h1, Fulfilled)
  | inl None => (h1, Fulfilled)
  | inr m =>
      (setError m (setTasks (App.removeById (task_id newTask)) h1), Rejected m)
  end.

Definition updateTask (h : Hook) (updatedTask : Task) (res : Fetch)
  : Hook * Outcome :=
  let oldTask := findTask (tasks h) (IdString (task_id updatedTask)) in
  let h1 := setTasks (App.replaceById (task_id updatedTask) updatedTask) h in
  match attempt res "Failed to update task" true with
  | inl (Some serverTask) =>
      (setTasks (App.replaceById (task_id serverTask) serverTask) h1, Fulfilled)
  | inl None => (h1, Fulfilled)
  | inr m =>
      let h2 :=
        match oldTask with
        | Some old => setTasks (App.replaceById (task_id updatedTask) old) h1
        | None => h1
        end in
      (setError m h2, Rejected m)
  end.

Definition deleteTask (h : Hook) (taskId : string) (res : Fetch) : Hook * Outcome :=
  let deletedTask := findTask (tasks h) (IdString taskId) in
  let h1 := setTasks (App.removeById taskId) h in
  match attempt res "Failed to delete task" false with
  | inl _ => (h1, Fulfilled)
  | inr m =>
      let h2 :=
        match deletedTask with
        | Some d => setTasks (fun prev => (prev ++ [d])%list) h1
        | None => h1
        end in
      (setError m h2, Rejected m)
  end.



End RestAPI.

(** ** The statements of the specification, in its own words *)

Import KanbanBoard.

(** Case-insensitive substring match of the search text against a field. *)
Definition ciMatch {JS : Builtins} (field search : string) : Prop :=
  includes (toLowerCase field) (toLowerCase search) = true.

Definition searchPasses {JS : Builtins} (p : Props) (st : State) (t : Task) : Prop :=
  enableSearch p = false \/ searchQuery st = EmptyString
  \/ ciMatch (task_title t) (searchQuery st)
  \/ ciMatch (task_description t) (searchQuery st)
  \/ ciMatch (task_id t) (searchQuery st).

Definition priorityPasses (p : Props) (st : State) (t : Task) : Prop :=
  enableFilters p = false \/ filterPriority st = all
  \/ filterPriority st = only (task_priority t).

Definition typePasses (p : Props) (st : State) (t : Task) : Prop :=
  enableFilters p = false \/ filterType st = all
  \/ filterType st = only (task_type t).

(** The assignee clause as the specification words it: a task matches
    "unassigned" when its assignee is absent. *)
Definition assigneePassesAbsent (p : Props) (st : State) (t : Task) : Prop :=
  enableFilters p = false \/ filterAssignee st = "all"
  \/ (filterAssignee st = "unassigned" /\ task_assignee t = None)
  \/ task_assignee t = Some (filterAssignee st).

(** The assignee clause of the code: a task matches "unassigned" when its
    assignee is absent or the empty string. *)
Definition assigneePasses (p : Props) (st : State) (t : Task) : Prop :=
  enableFilters p = false \/ filterAssignee st = "all"
  \/ (filterAssignee st = "unassigned"
      /\ (task_assignee t = None \/ task_assignee t = Some EmptyString))
  \/ task_assignee t = Some (filterAssignee st).

Definition passesAsWorded {JS : Builtins} (p : Props) (st : State) (t : Task) : Prop :=
  searchPasses p st t /\ priorityPasses p st t /\ typePasses p st t
  /\ assigneePassesAbsent p st t.

Definition passes {JS : Builtins} (p : Props) (st : State) (t : Task) : Prop :=
  searchPasses p st t /\ priorityPasses p st t /\ typePasses p st t
  /\ assigneePasses p st t.

(** The ids of a list of columns. *)
Definition columnIds (C : list Column) : list Status := map col_id C.

(** The tasks of [T] whose status has no column in [C]. *)
Definition excludedTasks (C : list Column) (T : list Task) : list Task :=
  List.filter (fun t => negb (bool_decide (task_status t ∈ columnIds C))) T.

(** The tasks of [T] with status [s], in the order of [T]. *)
Definition withStatus (s : Status) (T : list Task) : list Task :=
  List.filter (fun t => bool_decide (task_status t = s)) T.

(** The size of the group of [s] in a grouping, and the size of all groups
    of a grouping by status. *)
Definition groupSize (m : gmap Status (list Task)) (s : Status) : nat :=
  length (default [] (m !! s)).

Definition totalGrouped (m : gmap Status (list Task)) : nat :=
  sum_list (map (groupSize m) validStatuses).

(** The sizes of the groups the board renders for the columns [C]. *)
Definition totalRendered (m : gmap Status (list Task)) (C : list Column) : nat :=
  sum_list (map (fun c => length (columnTasks m c)) C).

(** How many columns of [C] have the id [s]. *)
Definition columnsWithId (s : Status) (C : list Column) : nat :=
  sum_list (map (fun c => if bool_decide (s = col_id c) then 1 else 0) C).

(** The grouping property as the specification words it, with the groups of
    the mapping [m] decided by the configured columns [C]. *)
Definition partitionsByConfigured (C : list Column) (T : list Task)
    (m : gmap Status (list Task)) : Prop :=
  (forall c, c ∈ C -> is_Some (m !! col_id c))
  /\ (forall t, t ∈ T ->
        (task_status t ∈ columnIds C ->
           forall s g, m !! s = Some g -> (t ∈ g <-> s = task_status t))
        /\ (task_status t ∉ columnIds C ->
           forall s g, m !! s = Some g -> t ∉ g))
  /\ totalGrouped m + length (excludedTasks C T) = length T.

(** A drop target that resolves to nothing, as the specification words it:
    no target, or a target that is neither a configured column nor a task. *)
Definition unresolvableAsWorded (p : Props) (event : DragEndEvent) : Prop :=
  over event = None
  \/ exists o, over event = Some o
       /\ (forall c, c ∈ boardColumns p -> o <> IdString (statusId (col_id c)))
       /\ (forall t, t ∈ tasks p -> o <> IdString (task_id t)).

(** The same with the handler's own notion of a column: one of the four
    statuses. *)
Definition unresolvable (p : Props) (event : DragEndEvent) : Prop :=
  over event = None
  \/ exists o, over event = Some o
       /\ (forall s : Status, o <> IdString (statusId s))
       /\ (forall t, t ∈ tasks p -> o <> IdString (task_id t)).

(** Dropping on a card as the specification words it: when the id of the
    card is not the id of a configured column, the target is the status of
    the card. *)
Definition dropOnCardAsWorded (p : Props) (t2 : Task) : Prop :=
  findTask (tasks p) (IdString (task_id t2)) = Some t2 ->
  (forall c, c ∈ boardColumns p -> task_id t2 <> statusId (col_id c)) ->
  resolveNewStatus (tasks p) (IdString (task_id t2)) = Some (task_status t2).

(** Dropping on the column "in-progress" as the specification words it: the
    move callback is invoked for every dragged task. *)
Definition movesToInProgressAsWorded (p : Props) (st : State) (taskId : string)
  : Prop :=
  forall t, findTask (tasks p) (IdString taskId) = Some t ->
    CallTaskMove taskId in_progress (task_status t)
    ∈ snd (handleDragEnd p st
             (mkDragEnd (IdString taskId) (Some (IdString "in-progress")))).

(** The fields of a task, the value a task has in a field and the value a
    change set gives a field, to speak of "every field not in the change
    set". *)
Inductive Field :=
| F_id | F_title | F_description | F_status | F_priority | F_type
| F_assignee | F_reporter | F_labels | F_comments | F_createdAt
| F_updatedAt | F_estimate | F_timeSpent | F_dueDate.

Inductive Value :=
| VString (s : string)
| VStatus (s : Status)
| VPriority (x : Priority)
| VType (x : IssueType)
| VOptString (s : option string)
| VLabels (l : list Label)
| VComments (l : list Comment)
| VDate (d : Date)
| VOptNumber (n : option number)
| VOptDate (d : option Date).

Definition getField (fld : Field) (t : Task) : Value :=
  match fld with
  | F_id => VString (task_id t)
  | F_title => VString (task_title t)
  | F_description => VString (task_description t)
  | F_status => VStatus (task_status t)
  | F_priority => VPriority (task_priority t)
  | F_type => VType (task_type t)
  | F_assignee => VOptString (task_assignee t)
  | F_reporter => VString (task_reporter t)
  | F_labels => VLabels (task_labels t)
  | F_comments => VComments (task_comments t)
  | F_createdAt => VDate (task_createdAt t)
  | F_updatedAt => VDate (task_updatedAt t)
  | F_estimate => VOptNumber (task_estimate t)
  | F_timeSpent => VOptNumber (task_timeSpent t)
  | F_dueDate => VOptDate (task_dueDate t)
  end.

Definition changeOf (fld : Field) (u : TaskModal.PartialTask) : option Value :=
  match fld with
  | F_id => VString <$> TaskModal.id u
  | F_title => VString <$> TaskModal.title u
  | F_description => VString <$> TaskModal.description u
  | F_status => VStatus <$> TaskModal.status u
  | F_priority => VPriority <$> TaskModal.priority u
  | F_type => VType <$> TaskModal.type u
  | F_assignee => VOptString <$> TaskModal.assignee u
  | F_reporter => VString <$> TaskModal.reporter u
  | F_labels => VLabels <$> TaskModal.labels u
  | F_comments => VComments <$> TaskModal.comments u
  | F_createdAt => VDate <$> TaskModal.createdAt u
  | F_updatedAt => VDate <$> TaskModal.updatedAt u
  | F_estimate => VOptNumber <$> TaskModal.estimate u
  | F_timeSpent => VOptNumber <$> TaskModal.timeSpent u
  | F_dueDate => VOptDate <$> TaskModal.dueDate u
  end.

(** Settles one field from what the change set says about it. *)
Ltac by_change_set :=
  match goal with
  | H : ?fld <> ?fld |- _ => by destruct H
  | H : _ <$> ?o = _ |- _ =>
      destruct o; simpl in H; try discriminate H; try injection H as <-;
      reflexivity
  end.

(** ** Sample data *)

Definition sampleTask (id title : string) (s : Status) (a : option string) : Task :=
  {| task_id := id; task_title := title; task_description := EmptyString;
     task_status := s; task_priority := medium; task_type := issue_task;
     task_assignee := a; task_reporter := "Current User";
     task_labels := []; task_comments := [];
     task_createdAt := 0%Z; task_updatedAt := 0%Z;
     task_estimate := None; task_timeSpent := None; task_dueDate := None |}.

Definition t1 : Task := sampleTask "t1" "Fix login bug" todo (Some "Ann").
Definition t2 : Task := sampleTask "t2" "Add feature" done None.
Definition t3 : Task := sampleTask "t3" "Write docs" in_progress (Some EmptyString).
Definition t4 : Task := sampleTask "t4" "Ship it" todo None.

(** A host that records nothing and whose callbacks succeed. *)
Definition sampleProps (T : list Task) (C : option (list Column)) : Props :=
  {| tasks := T;
     onTaskCreate := Some (fun _ => Fulfilled);
     onTaskUpdate := Some (fun _ => Fulfilled);
     onTaskDelete := Some (fun _ => Fulfilled);
     onTaskMove := Some (fun _ _ _ => Fulfilled);
     customColumns := C;
     enableSearch := true; enableFilters := true;
     enableViewToggle := true; enableCreateTask := true |}.

(** A host whose move callback fails. *)
Definition failingProps (T : list Task) (res : Outcome) : Props :=
  {| tasks := T;
     onTaskCreate := None; onTaskUpdate := None; onTaskDelete := None;
     onTaskMove := Some (fun _ _ _ => res);
     customColumns := None;
     enableSearch := true; enableFilters := true;
     enableViewToggle := true; enableCreateTask := true |}.

(** A board that shows two of the four columns, renamed. *)
Definition twoColumns : list Column :=
  [ mkColumn done "Shipped"; mkColumn todo "Backlog" ].

Definition backlogOnly : list Column := [ mkColumn todo "Backlog" ].

Definition unassignedFilter : State :=
  mkState None None false todo EmptyString all all "unassigned" board.

Definition searchBug : State :=
  mkState None None false todo "BUG" all all "all" board.

Definition sampleForm (title assignee : string) (est : number) : AddTaskModal.Form :=
  {| AddTaskModal.title := title; AddTaskModal.description := "  details ";
     AddTaskModal.priority := high; AddTaskModal.type := issue_bug;
     AddTaskModal.assignee := assignee; AddTaskModal.estimate := est;
     AddTaskModal.selectedLabels := [] |}.

Definition sampleClock (k : nat) : Date := (1700000000000 + Z.of_nat k)%Z.

(** The task the create form emits for the title "  Ship ", a blank assignee
    and an estimate that is not a number, on the column "in-review". *)
Definition createdSample : Task :=
  {| task_id := "task-1700000000000"; task_title := "Ship";
     task_description := "details"; task_status := in_review;
     task_priority := high; task_type := issue_bug;
     task_assignee := None; task_reporter := "Current User";
     task_labels := []; task_comments := [];
     task_createdAt := 1700000000001%Z; task_updatedAt := 1700000000002%Z;
     task_estimate := None; task_timeSpent := Some (S754_zero false);
     task_dueDate := None |}.

(** A change set that moves a task to "done", clears its due date and tries
    to set [updatedAt]. *)
Definition sampleUpdates : TaskModal.PartialTask :=
  {| TaskModal.id := None; TaskModal.title := None;
     TaskModal.description := None; TaskModal.status := Some done;
     TaskModal.priority := None; TaskModal.type := None;
     TaskModal.assignee := None; TaskModal.reporter := None;
     TaskModal.labels := None; TaskModal.comments := None;
     TaskModal.createdAt := None; TaskModal.updatedAt := Some 5%Z;
     TaskModal.estimate := None; TaskModal.timeSpent := None;
     TaskModal.dueDate := Some None |}.

(** ** More sample data *)

Definition t5 : Task := sampleTask "t5" "Review" in_review (Some "Ann").
Definition t6 : Task := sampleTask "t6" "Plan" todo (Some "Bob").

Definition annFilter : State :=
  mkState None None false todo EmptyString all all "Ann" board.

Definition labelBug : Label := mkLabel "l1" "Bug" "bg-red-500".
Definition labelUi : Label := mkLabel "l2" "UI" "bg-blue-500".

Definition detailOf (t : Task) (draft : string) : TaskModal.State :=
  TaskModal.mkState t draft false.

(** A host whose update callback rejects. *)
Definition failingUpdateProps (T : list Task) : Props :=
  {| tasks := T;
     onTaskCreate := Some (fun _ => Rejected "offline");
     onTaskUpdate := Some (fun _ => Rejected "offline");
     onTaskDelete := Some (fun _ => Rejected "offline");
     onTaskMove := None;
     customColumns := None;
     enableSearch := true; enableFilters := true;
     enableViewToggle := true; enableCreateTask := true |}.

(** A host without callbacks, with the two flags of the filter. *)
Definition plainProps (T : list Task) (search filters : bool) : Props :=
  {| tasks := T;
     onTaskCreate := None; onTaskUpdate := None; onTaskDelete := None;
     onTaskMove := None; customColumns := None;
     enableSearch := search; enableFilters := filters;
     enableViewToggle := true; enableCreateTask := true |}.

(** The task the create form emits for another form at the same reading of
    the clock. *)
Definition createdSample2 : Task :=
  {| task_id := "task-1700000000000"; task_title := "Other";
     task_description := "details"; task_status := todo;
     task_priority := high; task_type := issue_bug;
     task_assignee := Some "Bob"; task_reporter := "Current User";
     task_labels := []; task_comments := [];
     task_createdAt := 1700000000001%Z; task_updatedAt := 1700000000002%Z;
     task_estimate := None; task_timeSpent := Some (S754_zero false);
     task_dueDate := None |}.

(** The task [t1] with the label "Bug". *)
Definition t1Bug : Task :=
  {| task_id := "t1"; task_title := "Fix login bug";
     task_description := EmptyString; task_status := todo;
     task_priority := medium; task_type := issue_task;
     task_assignee := Some "Ann"; task_reporter := "Current User";
     task_labels := [labelBug]; task_comments := [];
     task_createdAt := 0%Z; task_updatedAt := 0%Z;
     task_estimate := None; task_timeSpent := None; task_dueDate := None |}.

(** A task to do whose id is the word "done", and a board without the
    column "done". *)
Definition cardDone : Task := sampleTask "done" "Odd id" todo None.

Definition withoutDone : list Column :=
  [ mkColumn todo "To Do"; mkColumn in_progress "In Progress" ].

(** A task whose title is in capitals with an accent. *)
Definition tEcole : Task := sampleTask "t7" "ÉCOLE" todo None.

Definition searchEcole : State :=
  mkState None None false todo "école" all all "all" board.

Definition sampleHook (T : list Task) : RestAPI.Hook :=
  RestAPI.mkHook T false None.

(** ** String and list facts *)

Lemma prefix_empty (s : string) : String.prefix EmptyString s = true.
Proof. destruct s; reflexivity. Qed.

(** Every string includes the empty string, so an empty search keeps all. *)
Lemma includes_empty (s : string) : includes s EmptyString = true.
Proof. destruct s; simpl; [reflexivity|]. reflexivity. Qed.

(** The instance strips a no-break space, a line separator and a byte order
    mark as it strips blanks, on both sides. *)
Example trim_unicode_white_space :
  trim (bytes [194; 160; 32; 226; 128; 168] +:+ "Ship it"
        +:+ bytes [239; 187; 191; 9; 227; 128; 128])
  = "Ship it".
Proof. reflexivity. Qed.

(** The instance folds the capital letters of Latin-1. *)
Example toLowerCase_latin : toLowerCase "ÉCOLE Été" = "école été".
Proof. reflexivity. Qed.

Lemma truthy_false (s : string) : truthy s = false <-> s = EmptyString.
Proof. destruct s; simpl; split; congruence. Qed.

Lemma truthyOpt_false (a : option string) :
  truthyOpt a = false <-> a = None \/ a = Some EmptyString.
Proof.
  destruct a as [s|]; simpl.
  - rewrite truthy_false. split.
    + intros ->. by right.
    + intros [H|H]; congruence.
  - split; [by left | done].
Qed.

Lemma filter_sublist {A} (f : A -> bool) (l : list A) :
  List.filter f l `sublist_of` l.
Proof.
  induction l as [|x l IH]; simpl.
  - constructor.
  - destruct (f x); by constructor.
Qed.

Lemma elem_of_filter_bool {A} (f : A -> bool) (l : list A) (x : A) :
  x ∈ List.filter f l <-> x ∈ l /\ f x = true.
Proof. rewrite !list_elem_of_In. apply filter_In. Qed.

(** ** The filter *)

Section Filter.
Variables (p : Props) (st : State).

Lemma matchesSearch_spec {JS : Builtins} t : matchesSearch p st t = true <-> searchPasses p st t.
Proof.
  unfold matchesSearch, searchPasses, ciMatch.
  rewrite !orb_true_iff, negb_true_iff.
  split.
  - intros [[[H|H]|H]|H]; auto.
  - intros [H|[H|[H|[H|H]]]]; auto.
    rewrite H, toLowerCase_empty. left; left; right. apply includes_empty.
Qed.

Lemma selects_spec {A} `{EqDecision A} (sel : OrAll A) (v : A) :
  selects sel v = true <-> sel = all \/ sel = only v.
Proof.
  destruct sel as [|a]; simpl.
  - split; auto.
  - rewrite bool_decide_eq_true. split.
    + intros ->. by right.
    + intros [H|H]; congruence.
Qed.

Lemma matchesPriority_spec t :
  matchesPriority p st t = true <-> priorityPasses p st t.
Proof.
  unfold matchesPriority, priorityPasses.
  by rewrite orb_true_iff, negb_true_iff, selects_spec.
Qed.

Lemma matchesType_spec t : matchesType p st t = true <-> typePasses p st t.
Proof.
  unfold matchesType, typePasses.
  by rewrite orb_true_iff, negb_true_iff, selects_spec.
Qed.

Lemma assigneeIs_spec a sel : assigneeIs a sel = true <-> a = Some sel.
Proof.
  destruct a as [s|]; simpl; [|done].
  rewrite bool_decide_eq_true. split; congruence.
Qed.

Lemma matchesAssignee_spec t :
  matchesAssignee p st t = true <-> assigneePasses p st t.
Proof.
  unfold matchesAssignee, assigneePasses.
  rewrite !orb_true_iff, andb_true_iff, !negb_true_iff, !bool_decide_eq_true,
    truthyOpt_false, assigneeIs_spec.
  tauto.
Qed.

Lemma keeps_spec {JS : Builtins} t : keeps p st t = true <-> passes p st t.
Proof.
  unfold keeps, passes.
  rewrite !andb_true_iff, matchesSearch_spec, matchesPriority_spec,
    matchesType_spec, matchesAssignee_spec.
  tauto.
Qed.

(** With the filters switched off the selectors are not read. *)
Lemma keeps_filters_off {JS : Builtins} t :
  enableFilters p = false -> keeps p st t = matchesSearch p st t.
Proof.
  intros H. unfold keeps, matchesPriority, matchesType, matchesAssignee.
  rewrite H. simpl. by rewrite !andb_true_r.
Qed.

End Filter.

(** The search is on lower-cased text: "BUG" finds "Fix login bug" only. *)
Example filteredTasks_search_bug :
  filteredTasks (sampleProps [t1; t2] None) searchBug = [t1].
Proof. reflexivity. Qed.

(** The search text "école" finds the title "ÉCOLE". *)
Example filteredTasks_search_accent :
  filteredTasks (sampleProps [t1; tEcole] None) searchEcole = [tEcole].
Proof. reflexivity. Qed.

(** C1, as the code has it: [filteredTasks] is a subsequence of the task
    collection in its original order, and a task of the collection is kept
    if and only if it passes the search clause, the priority clause, the type
    clause and the assignee clause, where under the selector "unassigned" a
    task passes when its assignee is absent or is the empty string. *)
Theorem filteredTasks_subsequence_and_membership {JS : Builtins} :
  forall (p : Props) (st : State),
    filteredTasks p st `sublist_of` tasks p
    /\ forall t, t ∈ filteredTasks p st <-> (t ∈ tasks p /\ passes p st t).
Proof.
  intros p st. split.
  - apply filter_sublist.
  - intros t. unfold filteredTasks.
    by rewrite elem_of_filter_bool, keeps_spec.
Qed.

(** C1 as worded fails: with the selector "unassigned", a task whose
    assignee is the empty string is kept, although its assignee is neither
    absent nor equal to the selector. *)
Lemma filteredTasks_empty_assignee_kept :
  t3 ∈ filteredTasks (sampleProps [t1; t2; t3] None) unassignedFilter
  /\ ~ passesAsWorded (sampleProps [t1; t2; t3] None) unassignedFilter t3.
Proof.
  split.
  - vm_compute. apply list_elem_of_In. simpl. auto.
  - intros (_ & _ & _ & [H|[H|[[_ H]|H]]]); vm_compute in H; discriminate.
Qed.

(** ** The grouping *)

Lemma emptyGroups_lookup (s : Status) : emptyGroups !! s = Some [].
Proof. destruct s; reflexivity. Qed.

Lemma pushTask_lookup (g : gmap Status (list Task)) (t : Task) (s : Status) :
  (forall k, is_Some (g !! k)) ->
  pushTask g t !! s
  = (fun l => if bool_decide (task_status t = s) then l ++ [t] else l) <$> g !! s.
Proof.
  intros Htot. unfold pushTask.
  destruct (Htot (task_status t)) as [l Hl]. rewrite Hl.
  case_bool_decide as Hs.
  - subst s. by rewrite lookup_insert_eq, Hl.
  - rewrite lookup_insert_ne by done.
    destruct (g !! s); reflexivity.
Qed.

Lemma pushTask_total (g : gmap Status (list Task)) (t : Task) :
  (forall k, is_Some (g !! k)) -> forall k, is_Some (pushTask g t !! k).
Proof.
  intros Htot k. rewrite pushTask_lookup by done.
  destruct (Htot k) as [l ->]. by eexists.
Qed.

Lemma withStatus_cons (s : Status) (t : Task) (T : list Task) :
  withStatus s (t :: T)
  = if bool_decide (task_status t = s) then t :: withStatus s T else withStatus s T.
Proof. reflexivity. Qed.

Lemma fold_pushTask_lookup (T : list Task) :
  forall (g : gmap Status (list Task)) (s : Status),
    (forall k, is_Some (g !! k)) ->
    fold_left pushTask T g !! s = (fun l => l ++ withStatus s T) <$> g !! s.
Proof.
  induction T as [|t T IH]; intros g s Htot; cbn [fold_left].
  - destruct (g !! s); simpl; [|done]. by rewrite app_nil_r.
  - rewrite IH by (by apply pushTask_total).
    rewrite pushTask_lookup by done.
    destruct (Htot s) as [l ->]. simpl.
    case_bool_decide; [|done].
    by rewrite <- app_assoc.
Qed.

(** The group of a status is the tasks with that status, in input order. *)
Lemma tasksByStatus_lookup (T : list Task) (s : Status) :
  tasksByStatus T !! s = Some (withStatus s T).
Proof.
  unfold tasksByStatus. rewrite fold_pushTask_lookup.
  - by rewrite emptyGroups_lookup.
  - intros k. rewrite emptyGroups_lookup. by eexists.
Qed.

Lemma columnTasks_tasksByStatus (T : list Task) (c : Column) :
  columnTasks (tasksByStatus T) c = withStatus (col_id c) T.
Proof. unfold columnTasks. by rewrite tasksByStatus_lookup. Qed.

Lemma elem_of_withStatus (s : Status) (T : list Task) (t : Task) :
  t ∈ withStatus s T <-> t ∈ T /\ task_status t = s.
Proof.
  unfold withStatus. by rewrite elem_of_filter_bool, bool_decide_eq_true.
Qed.

Lemma columnsWithId_absent (s : Status) (C : list Column) :
  s ∉ columnIds C -> columnsWithId s C = 0.
Proof.
  induction C as [|c C IH]; intros Hs; [reflexivity|].
  unfold columnsWithId in *. simpl in *.
  apply not_elem_of_cons in Hs as [Hne Hs].
  rewrite bool_decide_eq_false_2 by done. by rewrite IH.
Qed.

Lemma columnsWithId_NoDup (s : Status) (C : list Column) :
  NoDup (columnIds C) -> s ∈ columnIds C -> columnsWithId s C = 1.
Proof.
  induction C as [|c C IH]; intros Hnd Hs; simpl in *.
  - by apply elem_of_nil in Hs.
  - apply NoDup_cons in Hnd as [Hc Hnd].
    unfold columnsWithId in *. simpl.
    case_bool_decide as Heq.
    + subst s. fold (columnsWithId (col_id c) C).
      by rewrite columnsWithId_absent.
    + apply elem_of_cons in Hs as [Hs|Hs]; [done|].
      by rewrite IH.
Qed.

Lemma totalRendered_cons (t : Task) (T : list Task) (C : list Column) :
  totalRendered (tasksByStatus (t :: T)) C
  = columnsWithId (task_status t) C + totalRendered (tasksByStatus T) C.
Proof.
  unfold totalRendered, columnsWithId.
  induction C as [|c C IH]; [reflexivity|].
  simpl. rewrite IH, !columnTasks_tasksByStatus, withStatus_cons.
  case_bool_decide; simpl; lia.
Qed.

(** The rendered groups and the excluded tasks account for every task once,
    when no two configured columns share an id. *)
Lemma rendered_plus_excluded (C : list Column) (T : list Task) :
  NoDup (columnIds C) ->
  totalRendered (tasksByStatus T) C + length (excludedTasks C T) = length T.
Proof.
  intros Hnd. induction T as [|t T IH].
  - simpl. unfold totalRendered.
    induction C as [|c C IHC]; [reflexivity|].
    simpl. rewrite columnTasks_tasksByStatus. simpl.
    apply IHC. by apply NoDup_cons in Hnd as [_ ?].
  - rewrite totalRendered_cons. simpl.
    case_bool_decide as Hin; simpl.
    + rewrite columnsWithId_NoDup by done. lia.
    + rewrite columnsWithId_absent by done. lia.
Qed.

(** The four groups together hold every task once. *)
Lemma totalGrouped_length (T : list Task) :
  totalGrouped (tasksByStatus T) = length T.
Proof.
  unfold totalGrouped, groupSize, validStatuses. simpl.
  rewrite !tasksByStatus_lookup. simpl.
  induction T as [|t T IH]; [reflexivity|].
  rewrite !withStatus_cons.
  destruct (task_status t); simpl; lia.
Qed.

(** C2, as the code has it: the grouping does not read the configured
    columns. It maps each of the four statuses, hence the key of every
    configured column, to the tasks of the list with that status in their
    original order; every task of the list is in exactly one group, the one
    of its own status, whether that status is configured or not, and the
    group sizes add up to the length of the list. The board hands each
    configured column the group of its id, so a task is in the group of a
    rendered column exactly when that column has its status, and when no two
    configured columns share an id the rendered group sizes plus the number
    of tasks whose status is not configured is the length of the list. *)
Theorem tasksByStatus_groups_by_fixed_statuses :
  forall (p : Props) (T : list Task),
    (forall s, tasksByStatus T !! s = Some (withStatus s T))
    /\ (forall c, c ∈ boardColumns p -> is_Some (tasksByStatus T !! col_id c))
    /\ (forall s, withStatus s T `sublist_of` T)
    /\ (forall t s g, t ∈ T -> tasksByStatus T !! s = Some g ->
          (t ∈ g <-> s = task_status t))
    /\ totalGrouped (tasksByStatus T) = length T
    /\ (forall c t, c ∈ boardColumns p ->
          (t ∈ columnTasks (tasksByStatus T) c <->
           t ∈ T /\ task_status t = col_id c))
    /\ (NoDup (columnIds (boardColumns p)) ->
          totalRendered (tasksByStatus T) (boardColumns p)
          + length (excludedTasks (boardColumns p) T) = length T).
Proof.
  intros p T. split_and!.
  - apply tasksByStatus_lookup.
  - intros c _. rewrite tasksByStatus_lookup. by eexists.
  - intros s. apply filter_sublist.
  - intros t s g Ht Hg. rewrite tasksByStatus_lookup in Hg.
    injection Hg as <-. rewrite elem_of_withStatus.
    split; [by intros [_ ->] | by intros ->].
  - apply totalGrouped_length.
  - intros c t _. by rewrite columnTasks_tasksByStatus, elem_of_withStatus.
  - apply rendered_plus_excluded.
Qed.

(** The same at a board that shows two renamed columns: the task in
    progress is grouped but not rendered. *)
Lemma tasksByStatus_groups_two_columns :
  NoDup (columnIds (boardColumns (sampleProps [t1; t2; t3; t4] (Some twoColumns))))
  /\ tasksByStatus [t1; t2; t3; t4] !! in_progress = Some [t3]
  /\ totalRendered (tasksByStatus [t1; t2; t3; t4])
       (boardColumns (sampleProps [t1; t2; t3; t4] (Some twoColumns)))
     + length (excludedTasks
                 (boardColumns (sampleProps [t1; t2; t3; t4] (Some twoColumns)))
                 [t1; t2; t3; t4])
     = length [t1; t2; t3; t4].
Proof.
  assert (Hnd : NoDup (columnIds
            (boardColumns (sampleProps [t1; t2; t3; t4] (Some twoColumns))))).
  { simpl. apply NoDup_cons. split; [|apply NoDup_singleton].
    rewrite list_elem_of_singleton. discriminate. }
  destruct (tasksByStatus_groups_by_fixed_statuses
              (sampleProps [t1; t2; t3; t4] (Some twoColumns)) [t1; t2; t3; t4])
    as (Hl & _ & _ & _ & _ & _ & Hsum).
  split_and!.
  - exact Hnd.
  - rewrite Hl. reflexivity.
  - exact (Hsum Hnd).
Defined.

(** C2 as worded fails when the host configures fewer columns: a task
    whose status is not configured is still put in the group of its status,
    and the group sizes plus the excluded tasks exceed the list. *)
Lemma tasksByStatus_ignores_configured_columns :
  ~ partitionsByConfigured (boardColumns (sampleProps [t2] (Some backlogOnly)))
      [t2] (tasksByStatus [t2]).
Proof.
  intros (_ & Hpart & _).
  assert (Hin : t2 ∈ [t2]) by (apply list_elem_of_singleton; reflexivity).
  destruct (Hpart t2 Hin) as [_ Hout].
  assert (Hnot : task_status t2
                 ∉ columnIds (boardColumns (sampleProps [t2] (Some backlogOnly)))).
  { intros H. simpl in H. apply list_elem_of_singleton in H. discriminate H. }
  apply (Hout Hnot done [t2]); [|exact Hin].
  rewrite tasksByStatus_lookup. reflexivity.
Qed.

(** ** The drag handlers *)

Lemma idIs_true (u : UniqueIdentifier) (s : string) :
  idIs u s = true <-> u = IdString s.
Proof.
  destruct u as [s'|n]; simpl.
  - rewrite bool_decide_eq_true. split; congruence.
  - split; discriminate.
Qed.

Lemma asStatus_statusId (s : Status) : asStatus (IdString (statusId s)) = Some s.
Proof. destruct s; reflexivity. Qed.

Lemma asStatus_Some (u : UniqueIdentifier) (s : Status) :
  asStatus u = Some s -> u = IdString (statusId s).
Proof.
  unfold asStatus. intros H. apply find_some in H as [_ H].
  by apply idIs_true.
Qed.

Lemma asStatus_None (u : UniqueIdentifier) :
  (forall s, u <> IdString (statusId s)) -> asStatus u = None.
Proof.
  intros Hne. destruct (asStatus u) as [s|] eqn:E; [|done].
  apply asStatus_Some in E. by destruct (Hne s).
Qed.

Lemma findTask_Some (T : list Task) (u : UniqueIdentifier) (t : Task) :
  findTask T u = Some t -> t ∈ T /\ u = IdString (task_id t).
Proof.
  unfold findTask. intros H. apply find_some in H as [Hin H].
  split; [by apply list_elem_of_In | by apply idIs_true].
Qed.

Lemma findTask_None (T : list Task) (u : UniqueIdentifier) :
  (forall t, t ∈ T -> u <> IdString (task_id t)) -> findTask T u = None.
Proof.
  intros Hne. destruct (findTask T u) as [t|] eqn:E; [|done].
  apply findTask_Some in E as [Hin E]. by destruct (Hne t Hin).
Qed.

(** With unique ids, the task an id resolves to is the task that has it. *)
Lemma findTask_unique (T : list Task) (t : Task) :
  NoDup (map task_id T) -> t ∈ T -> findTask T (IdString (task_id t)) = Some t.
Proof.
  induction T as [|x T IH]; intros Hnd Hin.
  - by apply elem_of_nil in Hin.
  - simpl in Hnd. apply NoDup_cons in Hnd as [Hx Hnd].
    unfold findTask. simpl. case_bool_decide as Heq.
    + apply elem_of_cons in Hin as [->|Hin]; [done|].
      destruct Hx. rewrite <- Heq. apply list_elem_of_fmap. by exists t.
    + apply elem_of_cons in Hin as [->|Hin]; [done|]. by apply IH.
Qed.

(** Dropping on a column resolves to that column. *)
Lemma resolveNewStatus_column (T : list Task) (s : Status) :
  resolveNewStatus T (IdString (statusId s)) = Some s.
Proof. unfold resolveNewStatus. by rewrite asStatus_statusId. Qed.

(** Dropping on a card whose id is no status resolves to the card's status. *)
Lemma resolveNewStatus_card (T : list Task) (u : UniqueIdentifier) (t : Task) :
  asStatus u = None -> findTask T u = Some t ->
  resolveNewStatus T u = Some (task_status t).
Proof. unfold resolveNewStatus. by intros -> ->. Qed.

Lemma resolveNewStatus_None (T : list Task) (u : UniqueIdentifier) :
  (forall s, u <> IdString (statusId s)) ->
  (forall t, t ∈ T -> u <> IdString (task_id t)) ->
  resolveNewStatus T u = None.
Proof.
  intros Hs Ht. unfold resolveNewStatus.
  by rewrite asStatus_None, findTask_None.
Qed.

(** The drag marker is the only cell [handleDragEnd] writes. *)
Lemma handleDragEnd_state (p : Props) (st : State) (event : DragEndEvent) :
  fst (handleDragEnd p st event) = setActiveTask None st.
Proof.
  unfold handleDragEnd.
  destruct (over event); [|done].
  destruct (active event); [|done].
  destruct (findTask _ _); [|done].
  destruct (resolveNewStatus _ _); [|done].
  case_bool_decide; [done|].
  destruct (onTaskMove p); done.
Qed.

(** What a drop does once the dragged task and the target have resolved. *)
Lemma handleDragEnd_resolved (p : Props) (st : State) (taskId : string)
    (o : UniqueIdentifier) (t : Task) (s : Status) :
  findTask (tasks p) (IdString taskId) = Some t ->
  resolveNewStatus (tasks p) o = Some s ->
  handleDragEnd p st (mkDragEnd (IdString taskId) (Some o))
  = (setActiveTask None st,
     if bool_decide (task_status t = s) then []
     else match onTaskMove p with
          | None => []
          | Some cb => tryAwait (CallTaskMove taskId s (task_status t))
                                (cb taskId s (task_status t)) "Error moving task:"
          end).
Proof.
  intros Ht Hs. unfold handleDragEnd. simpl. rewrite Ht, Hs.
  case_bool_decide; [done|].
  by destruct (onTaskMove p).
Qed.

(** A drop whose target does not resolve does nothing. *)
Lemma handleDragEnd_unresolved (p : Props) (st : State) (a o : UniqueIdentifier) :
  resolveNewStatus (tasks p) o = None ->
  handleDragEnd p st (mkDragEnd a (Some o)) = (setActiveTask None st, []).
Proof.
  intros Hs. unfold handleDragEnd. simpl.
  destruct a; [|done].
  destruct (findTask _ _); [|done].
  by rewrite Hs.
Qed.

(** The views do not read the drag marker. *)
Lemma filteredTasks_setActiveTask {JS : Builtins} (p : Props) (st : State) (v : option Task) :
  filteredTasks p (setActiveTask v st) = filteredTasks p st.
Proof. reflexivity. Qed.

Lemma renderedColumns_setActiveTask {JS : Builtins} (p : Props) (st : State) (v : option Task) :
  renderedColumns p (setActiveTask v st) = renderedColumns p st.
Proof. reflexivity. Qed.

(** A gesture that starts from the idle state ends in the state it began in. *)
Lemma gesture_restores_idle (st : State) (v : option Task) :
  activeTask st = None -> setActiveTask None (setActiveTask v st) = st.
Proof. destruct st; simpl; intros ->; reflexivity. Qed.

Lemma dragGesture_state (p : Props) (st : State) (a : UniqueIdentifier)
    (o : option UniqueIdentifier) :
  activeTask st = None -> fst (dragGesture p st a o) = st.
Proof.
  intros Hidle. unfold dragGesture.
  rewrite handleDragEnd_state. by apply gesture_restores_idle.
Qed.

Lemma dragGesture_effects (p : Props) (st : State) (a : UniqueIdentifier)
    (o : option UniqueIdentifier) :
  snd (dragGesture p st a o) = snd (handleDragEnd p st (mkDragEnd a o)).
Proof.
  unfold dragGesture, handleDragEnd. simpl.
  destruct o; [|done].
  destruct a; [|done].
  destruct (findTask _ _); [|done].
  destruct (resolveNewStatus _ _); [|done].
  case_bool_decide; [done|].
  by destruct (onTaskMove p).
Qed.



(** C4, as the code has it: a task dropped on the card of a task whose id
    is none of the four status ids, whatever columns are configured,
    is given that task's status as target, and when the two statuses differ
    the move callback is invoked exactly once, with the id of the dragged
    task, the status of the card and the status the dragged task had. *)
Theorem drop_on_card_moves_to_card_status :
  forall (p : Props) (st : State) (id1 : string) (t1 t2 : Task)
         (cb : string -> Status -> Status -> Outcome),
    findTask (tasks p) (IdString id1) = Some t1 ->
    findTask (tasks p) (IdString (task_id t2)) = Some t2 ->
    (forall s, task_id t2 <> statusId s) ->
    onTaskMove p = Some cb ->
    id1 = task_id t1
    /\ resolveNewStatus (tasks p) (IdString (task_id t2)) = Some (task_status t2)
    /\ (task_status t2 <> task_status t1 ->
        List.filter isMoveCall
          (snd (handleDragEnd p st
                  (mkDragEnd (IdString id1) (Some (IdString (task_id t2))))))
        = [CallTaskMove (task_id t1) (task_status t2) (task_status t1)]).
Proof.
  intros p st id1 t1 t2 cb H1 H2 Hcol Hcb.
  assert (Hid : id1 = task_id t1).
  { apply findTask_Some in H1 as [_ H1]. congruence. }
  assert (Hres : resolveNewStatus (tasks p) (IdString (task_id t2))
                 = Some (task_status t2)).
  { apply resolveNewStatus_card; [|done].
    apply asStatus_None. intros s Hs. apply (Hcol s). congruence. }
  split_and!; [done..|].
  intros Hne.
  rewrite (handleDragEnd_resolved p st id1 _ t1 _ H1 Hres).
  rewrite bool_decide_eq_false_2 by congruence.
  rewrite Hcb, Hid. simpl.
  by destruct (cb _ _ _).
Qed.

(** The task "t1" in "todo" dropped on the task "t2" in "done". *)
Lemma drop_on_card_t1_on_t2 :
  handleDragEnd (sampleProps [t1; t2; t4] None) initialState
    (mkDragEnd (IdString "t1") (Some (IdString "t2")))
  = (initialState, [CallTaskMove "t1" done todo])
  /\ List.filter isMoveCall
       (snd (handleDragEnd (sampleProps [t1; t2; t4] None) initialState
               (mkDragEnd (IdString "t1") (Some (IdString (task_id t2))))))
     = [CallTaskMove (task_id t1) (task_status t2) (task_status t1)].
Proof.
  split; [reflexivity|].
  apply (drop_on_card_moves_to_card_status (sampleProps [t1; t2; t4] None)
           initialState "t1" t1 t2 (fun _ _ _ => Fulfilled)).
  - reflexivity.
  - reflexivity.
  - intros []; discriminate.
  - reflexivity.
  - discriminate.
Defined.

(** C4 as worded fails when the host configures fewer columns: on a board
    without the column "done", the card of a task to do whose id is "done"
    has an id that is no configured column, yet a drop on it resolves to the
    status "done", not to the status of the card, and a task to do dropped on
    it is moved to "done". *)
Lemma drop_on_card_with_status_id_goes_to_column :
  ~ dropOnCardAsWorded (sampleProps [t1; cardDone] (Some withoutDone)) cardDone
  /\ task_status cardDone = task_status t1
  /\ snd (handleDragEnd (sampleProps [t1; cardDone] (Some withoutDone))
            initialState
            (mkDragEnd (IdString "t1") (Some (IdString (task_id cardDone)))))
     = [CallTaskMove "t1" done todo].
Proof.
  split_and!; [|reflexivity..].
  intros H. unfold dropOnCardAsWorded in H.
  assert (Hres : resolveNewStatus
                   (tasks (sampleProps [t1; cardDone] (Some withoutDone)))
                   (IdString (task_id cardDone)) = Some todo).
  { apply H; [reflexivity|].
    intros c Hc. simpl in Hc.
    apply elem_of_cons in Hc as [->|Hc]; [discriminate|].
    apply list_elem_of_singleton in Hc. subst c. discriminate. }
  discriminate Hres.
Qed.

(** C5, as the code has it: when there is no drop target, or the target is
    neither one of the four status ids (whatever columns are configured) nor
    the id of a task of the collection, the drag is a silent cancel: nothing
    is invoked or logged, the handler only clears the drag marker, the
    filtered list and the rendered groups are what they were, and a gesture
    that began in the idle state leaves the state of the board as it was. *)
Theorem unresolvable_drop_is_silent_cancel {JS : Builtins} :
  forall (p : Props) (st : State) (event : DragEndEvent),
    unresolvable p event ->
    handleDragEnd p st event = (setActiveTask None st, [])
    /\ filteredTasks p (fst (handleDragEnd p st event)) = filteredTasks p st
    /\ renderedColumns p (fst (handleDragEnd p st event)) = renderedColumns p st
    /\ (activeTask st = None ->
        dragGesture p st (active event) (over event) = (st, [])).
Proof.
  intros p st [a ov] Hun.
  assert (Hend : handleDragEnd p st (mkDragEnd a ov) = (setActiveTask None st, [])).
  { destruct Hun as [Hno | (o & Ho & Hs & Ht)]; simpl in *; subst ov.
    - reflexivity.
    - apply handleDragEnd_unresolved. by apply resolveNewStatus_None. }
  split_and!.
  - exact Hend.
  - by rewrite Hend.
  - by rewrite Hend.
  - intros Hidle. simpl.
    rewrite (surjective_pairing (dragGesture _ _ _ _)).
    rewrite dragGesture_state by done.
    by rewrite dragGesture_effects, Hend.
Qed.

(** A drop on an id that no status and no task has. *)
Lemma unresolvable_drop_outside :
  unresolvable (sampleProps [t1; t2] None)
    (mkDragEnd (IdString "t1") (Some (IdString "trash")))
  /\ handleDragEnd (sampleProps [t1; t2] None) unassignedFilter
       (mkDragEnd (IdString "t1") (Some (IdString "trash")))
     = (setActiveTask None unassignedFilter, []).
Proof.
  assert (H : unresolvable (sampleProps [t1; t2] None)
                (mkDragEnd (IdString "t1") (Some (IdString "trash")))).
  { right. exists (IdString "trash"). split_and!.
    - reflexivity.
    - intros []; discriminate.
    - intros t Ht. simpl in Ht.
      apply elem_of_cons in Ht as [->|Ht]; [discriminate|].
      apply list_elem_of_singleton in Ht. subst t. discriminate. }
  split; [exact H|].
  exact (proj1 (unresolvable_drop_is_silent_cancel
                  (sampleProps [t1; t2] None) unassignedFilter _ H)).
Defined.

(** When every status has a configured column, as with the default columns,
    the wording of the specification and the handler agree. *)
Lemma unresolvableAsWorded_all_configured (p : Props) (event : DragEndEvent) :
  (forall s, s ∈ columnIds (boardColumns p)) ->
  unresolvableAsWorded p event -> unresolvable p event.
Proof.
  intros Hall [Hno | (o & Ho & Hc & Ht)]; [by left|].
  right. exists o. split_and!; [done| |done].
  intros s Hs.
  specialize (Hall s). apply list_elem_of_fmap in Hall as (c & -> & Hin).
  by apply (Hc c Hin).
Qed.

(** C5 as worded fails when the host configures fewer columns: on a board
    that shows only "todo", a drop on the id "done" is on no configured
    column and on no task, and the move callback is invoked. *)
Lemma unconfigured_status_drop_moves :
  unresolvableAsWorded (sampleProps [t1] (Some backlogOnly))
    (mkDragEnd (IdString "t1") (Some (IdString "done")))
  /\ snd (handleDragEnd (sampleProps [t1] (Some backlogOnly)) initialState
            (mkDragEnd (IdString "t1") (Some (IdString "done"))))
     = [CallTaskMove "t1" done todo].
Proof.
  split; [|reflexivity].
  right. exists (IdString "done"). split_and!.
  - reflexivity.
  - intros c Hc. simpl in Hc. apply list_elem_of_singleton in Hc. subst c.
    discriminate.
  - intros t Ht. apply list_elem_of_singleton in Ht. subst t. discriminate.
Qed.

(** C6: when the move callback throws or its promise rejects, the handler
    has invoked it once, catches the failure and logs it, and writes no state
    on account of the failure: the state is the one a successful move leaves,
    and the filtered list and the rendered groups are still computed from the
    task collection of the host as before. *)
Theorem move_failure_is_caught_without_rollback {JS : Builtins} :
  forall (p : Props) (st : State) (taskId : string) (o : UniqueIdentifier)
         (t : Task) (s : Status) (cb : string -> Status -> Status -> Outcome)
         (e : string),
    findTask (tasks p) (IdString taskId) = Some t ->
    resolveNewStatus (tasks p) o = Some s ->
    task_status t <> s ->
    onTaskMove p = Some cb ->
    (cb taskId s (task_status t) = Threw e
     \/ cb taskId s (task_status t) = Rejected e) ->
    handleDragEnd p st (mkDragEnd (IdString taskId) (Some o))
    = (setActiveTask None st,
       [CallTaskMove taskId s (task_status t);
        ConsoleError "Error moving task:" e])
    /\ filteredTasks p (fst (handleDragEnd p st (mkDragEnd (IdString taskId) (Some o))))
       = List.filter (keeps p st) (tasks p)
    /\ renderedColumns p (fst (handleDragEnd p st (mkDragEnd (IdString taskId) (Some o))))
       = renderedColumns p st
    /\ (activeTask st = None ->
        fst (dragGesture p st (IdString taskId) (Some o)) = st).
Proof.
  intros p st taskId o t s cb e Ht Hs Hne Hcb Hfail.
  rewrite (handleDragEnd_resolved p st taskId o t s Ht Hs).
  rewrite bool_decide_eq_false_2 by done.
  rewrite Hcb. split_and!.
  - by destruct Hfail as [-> | ->].
  - reflexivity.
  - reflexivity.
  - intros Hidle. by apply dragGesture_state.
Qed.

(** A host whose move callback rejects with "offline". *)
Lemma move_failure_rejected_offline :
  handleDragEnd (failingProps [t1; t2] (Rejected "offline")) initialState
    (mkDragEnd (IdString "t1") (Some (IdString "done")))
  = (setActiveTask None initialState,
     [CallTaskMove "t1" done (task_status t1);
      ConsoleError "Error moving task:" "offline"]).
Proof.
  apply (move_failure_is_caught_without_rollback
           (failingProps [t1; t2] (Rejected "offline")) initialState "t1"
           (IdString "done") t1 done (fun _ _ _ => Rejected "offline") "offline").
  - reflexivity.
  - reflexivity.
  - discriminate.
  - reflexivity.
  - right. reflexivity.
Defined.

(** C7, as the code has it: a task whose status is not "in-progress",
    dropped on the column "in-progress", makes the handler invoke the move
    callback once, with the id of the task, "in-progress" and the status the
    task had. *)
Theorem drop_on_in_progress_column_moves :
  forall (p : Props) (st : State) (taskId : string) (t : Task)
         (cb : string -> Status -> Status -> Outcome),
    findTask (tasks p) (IdString taskId) = Some t ->
    onTaskMove p = Some cb ->
    task_status t <> in_progress ->
    List.filter isMoveCall
      (snd (handleDragEnd p st
              (mkDragEnd (IdString taskId) (Some (IdString "in-progress")))))
    = [CallTaskMove taskId in_progress (task_status t)].
Proof.
  intros p st taskId t cb Ht Hcb Hne.
  change "in-progress"%string with (statusId in_progress).
  rewrite (handleDragEnd_resolved p st taskId _ t in_progress Ht
             (resolveNewStatus_column _ in_progress)).
  rewrite bool_decide_eq_false_2 by done.
  rewrite Hcb. simpl. by destruct (cb _ _ _).
Qed.

(** The task "t2" in "done" dropped on the column "in-progress". *)
Lemma drop_on_in_progress_column_t2 :
  List.filter isMoveCall
    (snd (handleDragEnd (sampleProps [t1; t2; t3] None) initialState
            (mkDragEnd (IdString "t2") (Some (IdString "in-progress")))))
  = [CallTaskMove "t2" in_progress (task_status t2)].
Proof.
  apply (drop_on_in_progress_column_moves (sampleProps [t1; t2; t3] None)
           initialState "t2" t2 (fun _ _ _ => Fulfilled)).
  - reflexivity.
  - reflexivity.
  - discriminate.
Defined.

(** C7 as worded fails for a task that is already in progress: dropped on
    the column "in-progress" it invokes nothing. *)
Lemma drop_on_own_in_progress_column_is_silent :
  ~ movesToInProgressAsWorded (sampleProps [t1; t2; t3] None) initialState "t3".
Proof.
  intros H. specialize (H t3 eq_refl).
  vm_compute in H. by apply elem_of_nil in H.
Qed.

(** ** The create form *)

Lemma handleSubmit_blank {JS : Builtins} (status : Status) (f : AddTaskModal.Form)
    (clock : nat -> Date) :
  trim (AddTaskModal.title f) = EmptyString ->
  AddTaskModal.handleSubmit status f clock
  = [AddTaskModal.WindowAlert "Title is required"].
Proof. intros H. unfold AddTaskModal.handleSubmit. by rewrite H. Qed.

(** C8: a submission whose title trims to the empty string is rejected by
    the form itself: it alerts "Title is required" and neither hands a task
    to the board nor closes; at the board no host callback is invoked and the
    state, hence everything shown, is unchanged. *)
Theorem blank_title_is_rejected_before_create {JS : Builtins} :
  forall (p : Props) (st : State) (f : AddTaskModal.Form) (clock : nat -> Date),
    trim (AddTaskModal.title f) = EmptyString ->
    (forall status, AddTaskModal.handleSubmit status f clock
                    = [AddTaskModal.WindowAlert "Title is required"])
    /\ submitAddTask p st f clock = (st, [Alert "Title is required"])
    /\ List.filter isHostCall (snd (submitAddTask p st f clock)) = []
    /\ filteredTasks p (fst (submitAddTask p st f clock)) = filteredTasks p st.
Proof.
  intros p st f clock Hblank.
  assert (Hsub : submitAddTask p st f clock = (st, [Alert "Title is required"])).
  { unfold submitAddTask. by rewrite handleSubmit_blank. }
  split_and!.
  - intros status. by apply handleSubmit_blank.
  - exact Hsub.
  - by rewrite Hsub.
  - by rewrite Hsub.
Qed.

(** A title of blanks and a tab. *)
Lemma blank_title_is_rejected_spaces :
  trim (AddTaskModal.title (sampleForm "  	 " "Ann" (S754_zero false)))
  = EmptyString
  /\ submitAddTask (sampleProps [t1] None) initialState
       (sampleForm "  	 " "Ann" (S754_zero false)) sampleClock
     = (initialState, [Alert "Title is required"]).
Proof.
  split; [reflexivity|].
  apply (blank_title_is_rejected_before_create (sampleProps [t1] None)
           initialState (sampleForm "  	 " "Ann" (S754_zero false)) sampleClock).
  reflexivity.
Defined.

Lemma handleSubmit_emits {JS : Builtins} (status : Status) (f : AddTaskModal.Form)
    (clock : nat -> Date) (t : Task) :
  AddTaskModal.OnAdd t ∈ AddTaskModal.handleSubmit status f clock ->
  truthy (trim (AddTaskModal.title f)) = true
  /\ AddTaskModal.handleSubmit status f clock
     = [AddTaskModal.OnAdd t; AddTaskModal.OnClose].
Proof.
  unfold AddTaskModal.handleSubmit.
  destruct (truthy (trim (AddTaskModal.title f))); simpl; intros H.
  - apply elem_of_cons in H as [H|H].
    + injection H as ->. done.
    + apply list_elem_of_singleton in H. discriminate H.
  - apply list_elem_of_singleton in H. discriminate H.
Qed.

(** C9: a task the create form emits has the trimmed title, which is not
    empty, and the trimmed description; no assignee when the entered one is
    blank; the entered estimate when that is strictly positive and none
    otherwise; zero time spent; no comments; and the status the form was
    opened with, which is the column [handleAddTask] was called for, so that
    this is the task the board hands to the create callback. *)
Theorem created_task_fields {JS : Builtins} :
  forall (status : Status) (f : AddTaskModal.Form) (clock : nat -> Date)
         (t : Task),
    AddTaskModal.OnAdd t ∈ AddTaskModal.handleSubmit status f clock ->
    task_title t = trim (AddTaskModal.title f)
    /\ task_title t <> EmptyString
    /\ task_description t = trim (AddTaskModal.description f)
    /\ (trim (AddTaskModal.assignee f) = EmptyString -> task_assignee t = None)
    /\ task_estimate t
       = (if SFltb (S754_zero false) (AddTaskModal.estimate f)
          then Some (AddTaskModal.estimate f) else None)
    /\ task_timeSpent t = Some (S754_zero false)
    /\ task_comments t = []
    /\ task_status t = status
    /\ (forall p st cb, onTaskCreate p = Some cb ->
          List.filter isHostCall
            (snd (submitAddTask p (handleAddTask st status) f clock))
          = [CallTaskCreate t]).
Proof.
  intros status f clock t Hin.
  destruct (handleSubmit_emits _ _ _ _ Hin) as [Htitle Hemit].
  pose proof Hemit as Hdef.
  unfold AddTaskModal.handleSubmit in Hdef. rewrite Htitle in Hdef.
  simpl in Hdef. injection Hdef as Hdef. subst t. simpl.
  split_and!; try reflexivity.
  - intros H. rewrite H in Htitle. discriminate Htitle.
  - by intros ->.
  - intros p st cb Hcb. unfold submitAddTask. simpl addTaskStatus.
    rewrite Hemit. simpl. unfold handleTaskAdded. rewrite Hcb.
    by destruct (cb _).
Qed.

(** The form opened from the column "in-review", with a padded title, a
    blank assignee and an estimate that is not a number. *)
Lemma created_task_fields_sample :
  AddTaskModal.handleSubmit in_review (sampleForm "  Ship " "   " S754_nan)
    sampleClock
  = [AddTaskModal.OnAdd createdSample; AddTaskModal.OnClose]
  /\ task_title createdSample = "Ship"
  /\ task_status createdSample = in_review
  /\ task_estimate createdSample = None.
Proof.
  assert (Hin : AddTaskModal.OnAdd createdSample
                ∈ AddTaskModal.handleSubmit in_review
                    (sampleForm "  Ship " "   " S754_nan) sampleClock).
  { apply list_elem_of_In. left. reflexivity. }
  destruct (created_task_fields in_review (sampleForm "  Ship " "   " S754_nan)
              sampleClock createdSample Hin)
    as (Ht & _ & _ & _ & He & _ & _ & Hs & _).
  split_and!.
  - reflexivity.
  - exact Ht.
  - exact Hs.
  - exact He.
Defined.

(** ** The detail form *)

(** C10: the task [handleUpdate] emits, which is also the new edited task,
    keeps in every field that is not in the change set and is not [updatedAt]
    the value of the edited task, has in every field of the change set other
    than [updatedAt] the value the change set gives, and has the fresh time
    stamp in [updatedAt] whatever the change set says. *)
Theorem handleUpdate_frame :
  forall (editedTask : Task) (updates : TaskModal.PartialTask) (now : Date),
    fst (TaskModal.handleUpdate editedTask updates now)
    = snd (TaskModal.handleUpdate editedTask updates now)
    /\ (forall fld, fld <> F_updatedAt -> changeOf fld updates = None ->
          getField fld (snd (TaskModal.handleUpdate editedTask updates now))
          = getField fld editedTask)
    /\ (forall fld v, fld <> F_updatedAt -> changeOf fld updates = Some v ->
          getField fld (snd (TaskModal.handleUpdate editedTask updates now)) = v)
    /\ task_updatedAt (snd (TaskModal.handleUpdate editedTask updates now)) = now.
Proof.
  intros e u now. split_and!.
  - reflexivity.
  - intros fld Hne Hch. destruct u, fld; simpl in *; by_change_set.
  - intros fld v Hne Hch. destruct u, fld; simpl in *; by_change_set.
  - reflexivity.
Qed.

(** The task [t1] moved to "done" with its due date cleared: the title is
    kept, the status and the due date are the given ones, and the time stamp
    is the fresh one, not the one of the change set. *)
Lemma handleUpdate_frame_sample :
  getField F_title (snd (TaskModal.handleUpdate t1 sampleUpdates 9%Z))
  = getField F_title t1
  /\ getField F_status (snd (TaskModal.handleUpdate t1 sampleUpdates 9%Z))
     = VStatus done
  /\ getField F_dueDate (snd (TaskModal.handleUpdate t1 sampleUpdates 9%Z))
     = VOptDate None
  /\ task_updatedAt (snd (TaskModal.handleUpdate t1 sampleUpdates 9%Z)) = 9%Z.
Proof.
  destruct (handleUpdate_frame t1 sampleUpdates 9%Z) as (_ & Hkeep & Hset & Hnow).
  split_and!.
  - apply Hkeep; [discriminate | reflexivity].
  - apply Hset; [discriminate | reflexivity].
  - apply Hset; [discriminate | reflexivity].
  - exact Hnow.
Defined.

(** * Further properties of the code *)

(** ** Sets read back as arrays, and the assignee options *)

Lemma elem_of_setAdd {A} `{EqDecision A} (s : list A) (x y : A) :
  y ∈ setAdd s x <-> y ∈ s \/ y = x.
Proof.
  unfold setAdd. case_bool_decide as Hin.
  - split; [by left|]. intros [?| ->]; done.
  - rewrite elem_of_app, list_elem_of_singleton. tauto.
Qed.

Lemma setAdd_NoDup {A} `{EqDecision A} (s : list A) (x : A) :
  NoDup s -> NoDup (setAdd s x).
Proof.
  intros Hnd. unfold setAdd. case_bool_decide as Hin; [done|].
  apply NoDup_app. split_and!; [done| |apply NoDup_singleton].
  intros y Hy Hx. apply list_elem_of_singleton in Hx. by subst.
Qed.

Lemma fold_setAdd {A} `{EqDecision A} (xs : list A) :
  forall acc : list A,
    (NoDup acc -> NoDup (fold_left setAdd xs acc))
    /\ forall y, y ∈ fold_left setAdd xs acc <-> y ∈ acc \/ y ∈ xs.
Proof.
  induction xs as [|x xs IH]; intros acc; simpl.
  - split; [done|]. intros y. rewrite elem_of_nil. tauto.
  - destruct (IH (setAdd acc x)) as [Hnd Hin]. split.
    + intros Hacc. by apply Hnd, setAdd_NoDup.
    + intros y. rewrite Hin, elem_of_setAdd, elem_of_cons. tauto.
Qed.

Lemma newSet_NoDup {A} `{EqDecision A} (xs : list A) : NoDup (newSet xs).
Proof. apply fold_setAdd. constructor. Qed.

Lemma elem_of_newSet {A} `{EqDecision A} (xs : list A) (y : A) :
  y ∈ newSet xs <-> y ∈ xs.
Proof.
  unfold newSet. rewrite (proj2 (fold_setAdd xs [])), elem_of_nil. tauto.
Qed.

Lemma NoDup_omap_id {A} (l : list (option A)) : NoDup l -> NoDup (omap id l).
Proof.
  induction 1 as [|x l Hx Hnd IH]; simpl; [constructor|].
  destruct x as [a|]; simpl; [|done].
  constructor; [|done].
  rewrite list_elem_of_omap. intros (y & Hy & Heq). simpl in Heq. by subst.
Qed.

Lemma truthy_true (s : string) : truthy s = true <-> s <> EmptyString.
Proof. destruct s; simpl; split; congruence. Qed.

Lemma assignees_NoDup (p : Props) : NoDup (assignees p).
Proof. unfold assignees. apply NoDup_omap_id, newSet_NoDup. Qed.

Lemma elem_of_assignees (p : Props) (a : string) :
  a ∈ assignees p <->
  (a <> EmptyString /\ exists t, t ∈ tasks p /\ task_assignee t = Some a).
Proof.
  unfold assignees. rewrite list_elem_of_omap. split.
  - intros (x & Hx & Heq). simpl in Heq. subst x.
    apply elem_of_newSet, elem_of_filter_bool in Hx as [Hx Ht].
    simpl in Ht. apply truthy_true in Ht. split; [done|].
    apply list_elem_of_fmap in Hx as (t & Ha & Hin). by exists t.
  - intros (Hne & t & Hin & Ha). exists (Some a). split; [|done].
    apply elem_of_newSet, elem_of_filter_bool. split.
    + apply list_elem_of_fmap. by exists t.
    + simpl. by apply truthy_true.
Qed.

(** X1: the assignee options hold no name twice and no empty name, and a
    name is an option exactly when it is not empty and some task of the
    collection has it as assignee. *)
Theorem assignees_unique_and_exact :
  forall (p : Props),
    NoDup (assignees p)
    /\ forall a, a ∈ assignees p <->
         (a <> EmptyString
          /\ exists t, t ∈ tasks p /\ task_assignee t = Some a).
Proof.
  intros p. split; [apply assignees_NoDup | apply elem_of_assignees].
Qed.

Lemma filter_ext_in_bool {A} (f g : A -> bool) (l : list A) :
  (forall x, x ∈ l -> f x = g x) -> List.filter f l = List.filter g l.
Proof.
  intros H. apply filter_ext_in. intros x Hx. apply H. by apply list_elem_of_In.
Qed.

Lemma filter_all {A} (f : A -> bool) (l : list A) :
  (forall x, x ∈ l -> f x = true) -> List.filter f l = l.
Proof.
  induction l as [|x l IH]; intros H; simpl; [done|].
  rewrite (H x) by apply list_elem_of_here.
  f_equal. apply IH. intros y Hy. apply H. by apply list_elem_of_further.
Qed.

Lemma matchesSearch_empty {JS : Builtins} (p : Props) (st : State) (t : Task) :
  enableSearch p = false \/ searchQuery st = EmptyString ->
  matchesSearch p st t = true.
Proof. intros H. apply matchesSearch_spec. unfold searchPasses. tauto. Qed.

(** X2: choosing an assignee option that is not spelled "all" or
    "unassigned", with the other filters cleared and no search text, shows
    exactly the tasks of that assignee, in order, and at least one. *)
Theorem assignee_option_shows_its_tasks {JS : Builtins} :
  forall (p : Props) (st : State) (a : string),
    a ∈ assignees p ->
    a <> "all" -> a <> "unassigned" ->
    enableFilters p = true ->
    searchQuery st = EmptyString ->
    filteredTasks p (setFilterAssignee a (clearFilters st))
    = List.filter (fun t => assigneeIs (task_assignee t) a) (tasks p)
    /\ filteredTasks p (setFilterAssignee a (clearFilters st)) <> [].
Proof.
  intros p st a Ha Hall Hun Hf Hq.
  assert (Heq : filteredTasks p (setFilterAssignee a (clearFilters st))
                = List.filter (fun t => assigneeIs (task_assignee t) a) (tasks p)).
  { unfold filteredTasks. apply filter_ext_in_bool. intros t _.
    unfold keeps, matchesPriority, matchesType, matchesAssignee.
    rewrite matchesSearch_empty by (by right).
    rewrite Hf. simpl.
    rewrite !bool_decide_eq_false_2 by done. reflexivity. }
  split; [exact Heq|].
  rewrite Heq.
  apply elem_of_assignees in Ha as (_ & t & Hin & Hta).
  intros Hnil.
  assert (Ht : t ∈ List.filter (fun t => assigneeIs (task_assignee t) a) (tasks p)).
  { apply elem_of_filter_bool. split; [done|]. by apply assigneeIs_spec. }
  rewrite Hnil in Ht. by apply elem_of_nil in Ht.
Qed.

(** The option "Ann" on a board where Ann has the first and the third of
    four tasks. *)
Lemma assignee_option_shows_its_tasks_ann :
  assignees (sampleProps [t1; t2; t5; t6] None) = ["Ann"; "Bob"]
  /\ filteredTasks (sampleProps [t1; t2; t5; t6] None)
       (setFilterAssignee "Ann" (clearFilters unassignedFilter))
     = [t1; t5].
Proof.
  split; [reflexivity|].
  destruct (assignee_option_shows_its_tasks
              (sampleProps [t1; t2; t5; t6] None) unassignedFilter "Ann")
    as [Heq _].
  - apply list_elem_of_In. left. reflexivity.
  - discriminate.
  - discriminate.
  - reflexivity.
  - reflexivity.
  - rewrite Heq. reflexivity.
Defined.

(** ** Filters switched off or cleared *)

Lemma matchesSearch_query {JS : Builtins} (p : Props) (st st' : State) (t : Task) :
  searchQuery st = searchQuery st' -> matchesSearch p st t = matchesSearch p st' t.
Proof. intros H. unfold matchesSearch. by rewrite H. Qed.

(** X3: with [enableFilters] off, the priority, type and assignee
    selectors are not read: two states with the same search text give the
    same filtered list. *)
Theorem filters_off_ignores_selectors {JS : Builtins} :
  forall (p : Props) (st st' : State),
    enableFilters p = false ->
    searchQuery st = searchQuery st' ->
    filteredTasks p st = filteredTasks p st'.
Proof.
  intros p st st' Hoff Hq. unfold filteredTasks.
  apply filter_ext_in_bool. intros t _.
  rewrite !keeps_filters_off by done. by apply matchesSearch_query.
Qed.

Lemma notAll_false {A} (sel : OrAll A) : notAll sel = false <-> sel = all.
Proof. destruct sel; simpl; split; congruence. Qed.

Lemma activeFiltersCount_zero (st : State) :
  activeFiltersCount st = 0 <->
  (filterPriority st = all /\ filterType st = all /\ filterAssignee st = "all").
Proof.
  unfold activeFiltersCount.
  rewrite <- !notAll_false.
  destruct (notAll (filterPriority st)), (notAll (filterType st));
    case_bool_decide; simpl; split; try done; intros (? & ? & ?); done.
Qed.

(** X4: the filter count is zero exactly when the three selectors are
    "all"; "Clear" always brings it to zero; and when it is zero and the
    search is off or empty, the board shows every task of the collection. *)
Theorem no_active_filter_shows_all {JS : Builtins} :
  forall (p : Props) (st : State),
    (activeFiltersCount st = 0 <->
       (filterPriority st = all /\ filterType st = all
        /\ filterAssignee st = "all"))
    /\ activeFiltersCount (clearFilters st) = 0
    /\ (activeFiltersCount st = 0 ->
        enableSearch p = false \/ searchQuery st = EmptyString ->
        filteredTasks p st = tasks p).
Proof.
  intros p st. split_and!.
  - apply activeFiltersCount_zero.
  - reflexivity.
  - intros Hz Hs. apply activeFiltersCount_zero in Hz as (Hp & Ht & Ha).
    unfold filteredTasks. apply filter_all. intros t _.
    unfold keeps, matchesPriority, matchesType, matchesAssignee.
    rewrite matchesSearch_empty by done.
    rewrite Hp, Ht, Ha. simpl. by rewrite !orb_true_r.
Qed.

(** With the filters off, the selector "Ann" and the selector "unassigned"
    show the same three tasks. *)
Lemma filters_off_ignores_selectors_sample :
  filteredTasks (plainProps [t1; t2; t5] true false) annFilter
  = filteredTasks (plainProps [t1; t2; t5] true false) unassignedFilter
  /\ filteredTasks (plainProps [t1; t2; t5] true false) annFilter = [t1; t2; t5].
Proof.
  split; [|reflexivity].
  apply (filters_off_ignores_selectors (plainProps [t1; t2; t5] true false)
           annFilter unassignedFilter); reflexivity.
Defined.

(** The board as it is mounted shows the whole collection. *)
Lemma no_active_filter_shows_all_on_mount :
  filteredTasks (sampleProps [t1; t2; t3] None) initialState = [t1; t2; t3].
Proof.
  destruct (no_active_filter_shows_all (sampleProps [t1; t2; t3] None)
              initialState) as (_ & _ & H).
  apply H; [reflexivity | by right].
Defined.

(** ** The statistics row *)

Lemma columnStat_length (T : list Task) (c : Column) :
  columnStat (tasksByStatus T) c = length (withStatus (col_id c) T).
Proof. unfold columnStat. by rewrite tasksByStatus_lookup. Qed.

Lemma stats_totalRendered {JS : Builtins} (p : Props) (st : State) :
  sum_list (snd (stats p st))
  = totalRendered (tasksByStatus (filteredTasks p st)) (boardColumns p).
Proof.
  unfold stats, totalRendered. simpl.
  induction (boardColumns p) as [|c C IH]; [reflexivity|].
  simpl. by rewrite IH, columnStat_length, columnTasks_tasksByStatus.
Qed.

Lemma excludedTasks_all_configured (C : list Column) (T : list Task) :
  (forall s, s ∈ columnIds C) -> excludedTasks C T = [].
Proof.
  intros Hall. unfold excludedTasks.
  induction T as [|t T IH]; [reflexivity|].
  simpl. by rewrite bool_decide_eq_true_2.
Qed.

Lemma excludedTasks_none (C : list Column) (T : list Task) :
  length (excludedTasks C T) = 0
  <-> forall t, t ∈ T -> task_status t ∈ columnIds C.
Proof.
  unfold excludedTasks. induction T as [|t T IH]; simpl.
  - split; [|done]. intros _ t Ht. by apply elem_of_nil in Ht.
  - case_bool_decide as Hin; simpl.
    + rewrite IH. split.
      * intros H x Hx. apply elem_of_cons in Hx as [->|Hx]; [done | by apply H].
      * intros H x Hx. apply H. by apply list_elem_of_further.
    + split; [discriminate|]. intros H. destruct Hin. apply H.
      apply list_elem_of_here.
Qed.

(** X5: in the statistics row, when no two configured columns share an
    id, the counts of the columns never add up to more than the total, and
    they add up to the total exactly when every task of the filtered list has
    a status with a configured column; so they do whenever every status has a
    column, as with the default columns. *)
Theorem stats_counts_sum_to_total {JS : Builtins} :
  forall (p : Props) (st : State),
    NoDup (columnIds (boardColumns p)) ->
    sum_list (snd (stats p st)) <= fst (stats p st)
    /\ (sum_list (snd (stats p st)) = fst (stats p st) <->
        forall t, t ∈ filteredTasks p st ->
                  task_status t ∈ columnIds (boardColumns p))
    /\ ((forall s, s ∈ columnIds (boardColumns p)) ->
        sum_list (snd (stats p st)) = fst (stats p st)).
Proof.
  intros p st Hnd.
  pose proof (rendered_plus_excluded (boardColumns p) (filteredTasks p st) Hnd)
    as Hsum.
  pose proof (excludedTasks_none (boardColumns p) (filteredTasks p st)) as Hex.
  rewrite stats_totalRendered. simpl. split_and!.
  - lia.
  - rewrite <- Hex. lia.
  - intros Hall. rewrite excludedTasks_all_configured in Hsum by done.
    simpl in Hsum. lia.
Qed.

(** The default columns: one task to do, one in progress, one done. *)
Lemma stats_counts_default_columns :
  stats (sampleProps [t1; t2; t3] None) initialState = (3, [1; 1; 0; 1])
  /\ sum_list (snd (stats (sampleProps [t1; t2; t3] None) initialState))
     = fst (stats (sampleProps [t1; t2; t3] None) initialState).
Proof.
  split; [reflexivity|].
  apply (stats_counts_sum_to_total (sampleProps [t1; t2; t3] None) initialState).
  - simpl. repeat (apply NoDup_cons; split;
      [rewrite ?elem_of_cons, ?elem_of_nil; intros H; intuition discriminate|]).
    apply NoDup_nil. done.
  - intros []; simpl; rewrite ?elem_of_cons; auto 6.
Defined.

(** ** More on the drag handlers *)

(** X6: whatever the event, [handleDragEnd] makes at most one call to the
    host and it is a move; a move it asks for is of the task the drag began
    on, found in the collection, from the status that task has to a
    different status, which is the one the drop target resolves to. *)
Theorem handleDragEnd_only_real_moves :
  forall (p : Props) (st : State) (event : DragEndEvent),
    length (List.filter isHostCall (snd (handleDragEnd p st event))) <= 1
    /\ forall e, e ∈ snd (handleDragEnd p st event) -> isHostCall e = true ->
         exists taskId t newStatus o,
           e = CallTaskMove taskId newStatus (task_status t)
           /\ active event = IdString taskId
           /\ findTask (tasks p) (IdString taskId) = Some t
           /\ over event = Some o
           /\ resolveNewStatus (tasks p) o = Some newStatus
           /\ newStatus <> task_status t.
Proof.
  intros p st [a ov]. unfold handleDragEnd. simpl.
  destruct ov as [o|]; [|split; [simpl; lia | intros e H; by apply elem_of_nil in H]].
  destruct a as [taskId|n];
    [|split; [simpl; lia | intros e H; by apply elem_of_nil in H]].
  destruct (findTask (tasks p) (IdString taskId)) as [t|] eqn:Ht;
    [|split; [simpl; lia | intros e H; by apply elem_of_nil in H]].
  destruct (resolveNewStatus (tasks p) o) as [s|] eqn:Hs;
    [|split; [simpl; lia | intros e H; by apply elem_of_nil in H]].
  case_bool_decide as Hsame;
    [split; [simpl; lia | intros e H; by apply elem_of_nil in H]|].
  destruct (onTaskMove p) as [cb|];
    [|split; [simpl; lia | intros e H; by apply elem_of_nil in H]].
  simpl. split.
  - destruct (cb _ _ _); simpl; lia.
  - intros e He Hcall.
    assert (e = CallTaskMove taskId s (task_status t)) as ->.
    { destruct (cb _ _ _); simpl in He;
        repeat (apply elem_of_cons in He as [->|He]; [done || discriminate Hcall|]);
        by apply elem_of_nil in He. }
    exists taskId, t, s, o. split_and!; done || congruence.
Qed.

(** X7: a board without [onTaskMove] does nothing on any drop; the handler
    only clears the drag marker. *)
Theorem drag_without_callback_is_inert :
  forall (p : Props) (st : State) (event : DragEndEvent),
    onTaskMove p = None ->
    handleDragEnd p st event = (setActiveTask None st, []).
Proof.
  intros p st event Hno. unfold handleDragEnd.
  destruct (over event); [|done].
  destruct (active event); [|done].
  destruct (findTask _ _); [|done].
  destruct (resolveNewStatus _ _); [|done].
  case_bool_decide; [done|].
  by rewrite Hno.
Qed.

(** A drop from "todo" on "done" at a host that gave no move callback. *)
Lemma drag_without_callback_is_inert_sample :
  handleDragEnd (plainProps [t1; t2] true true) initialState
    (mkDragEnd (IdString "t1") (Some (IdString "done")))
  = (setActiveTask None initialState, []).
Proof.
  apply (drag_without_callback_is_inert (plainProps [t1; t2] true true)).
  reflexivity.
Defined.

Lemma handleDragEnd_by_resolution (p : Props) (st : State)
    (a o o' : UniqueIdentifier) :
  resolveNewStatus (tasks p) o = resolveNewStatus (tasks p) o' ->
  handleDragEnd p st (mkDragEnd a (Some o))
  = handleDragEnd p st (mkDragEnd a (Some o')).
Proof.
  intros H. unfold handleDragEnd. simpl.
  destruct a; [|done].
  destruct (findTask _ _); [|done].
  by rewrite H.
Qed.

(** X8: dropping on the card of a task whose id is not a status id does
    exactly what dropping on the column of that task does. *)
Theorem drop_on_card_is_drop_on_its_column :
  forall (p : Props) (st : State) (a o : UniqueIdentifier) (t2 : Task),
    (forall s, o <> IdString (statusId s)) ->
    findTask (tasks p) o = Some t2 ->
    handleDragEnd p st (mkDragEnd a (Some o))
    = handleDragEnd p st
        (mkDragEnd a (Some (IdString (statusId (task_status t2))))).
Proof.
  intros p st a o t2 Hcol Ht2.
  apply handleDragEnd_by_resolution.
  rewrite resolveNewStatus_column.
  apply resolveNewStatus_card; [by apply asStatus_None | done].
Qed.

(** The task "t1" dropped on the card "t2", which is done, and on "done". *)
Lemma drop_on_card_is_drop_on_its_column_sample :
  handleDragEnd (sampleProps [t1; t2] None) initialState
    (mkDragEnd (IdString "t1") (Some (IdString "t2")))
  = handleDragEnd (sampleProps [t1; t2] None) initialState
      (mkDragEnd (IdString "t1") (Some (IdString (statusId (task_status t2))))).
Proof.
  apply (drop_on_card_is_drop_on_its_column (sampleProps [t1; t2] None)
           initialState (IdString "t1") (IdString "t2") t2).
  - intros []; discriminate.
  - reflexivity.
Defined.

(** X9: a drag always ends idle: whatever the event and whatever the
    callback does, [handleDragEnd] leaves no active task and writes no other
    cell; and a drag that starts on an id no task has stays idle. *)
Theorem drag_always_ends_idle :
  forall (p : Props) (st : State) (event : DragEndEvent),
    fst (handleDragEnd p st event) = setActiveTask None st
    /\ activeTask (fst (handleDragEnd p st event)) = None
    /\ forall a,
         (forall t, t ∈ tasks p -> a <> IdString (task_id t)) ->
         activeTask st = None ->
         handleDragStart p st (mkDragStart a) = st.
Proof.
  intros p st event. split_and!.
  - apply handleDragEnd_state.
  - by rewrite handleDragEnd_state.
  - intros a Hno Hidle. unfold handleDragStart. simpl.
    rewrite findTask_None by done.
    destruct st; simpl in *; by subst.
Qed.

(** A drag that starts on the id "ghost". *)
Lemma drag_start_on_unknown_id :
  handleDragStart (sampleProps [t1; t2] None) initialState
    (mkDragStart (IdString "ghost")) = initialState.
Proof.
  destruct (drag_always_ends_idle (sampleProps [t1; t2] None) initialState
              (mkDragEnd (IdString "ghost") None)) as (_ & _ & H).
  apply H; [|reflexivity].
  intros t Ht. simpl in Ht.
  apply elem_of_cons in Ht as [->|Ht]; [discriminate|].
  apply list_elem_of_singleton in Ht. subst t. discriminate.
Defined.

(** A drop from "todo" on "done": the one call is the move of "t1". *)
Lemma handleDragEnd_only_real_moves_sample :
  length (List.filter isHostCall
            (snd (handleDragEnd (sampleProps [t1; t2] None) initialState
                    (mkDragEnd (IdString "t1") (Some (IdString "done")))))) <= 1
  /\ exists taskId t newStatus o,
       CallTaskMove "t1" done todo = CallTaskMove taskId newStatus (task_status t)
       /\ active (mkDragEnd (IdString "t1") (Some (IdString "done")))
          = IdString taskId
       /\ findTask (tasks (sampleProps [t1; t2] None)) (IdString taskId) = Some t
       /\ over (mkDragEnd (IdString "t1") (Some (IdString "done"))) = Some o
       /\ resolveNewStatus (tasks (sampleProps [t1; t2] None)) o = Some newStatus
       /\ newStatus <> task_status t.
Proof.
  destruct (handleDragEnd_only_real_moves (sampleProps [t1; t2] None)
              initialState (mkDragEnd (IdString "t1") (Some (IdString "done"))))
    as [Hlen Hcall].
  split; [exact Hlen|].
  apply Hcall; [|reflexivity].
  apply list_elem_of_In. left. reflexivity.
Defined.

(** ** The detail form on the board *)

Lemma update_emits (mst : TaskModal.State) (u : TaskModal.PartialTask) (now : Date) :
  TaskModal.update mst u now
  = (TaskModal.mkState (TaskModal.merged (TaskModal.editedTask mst) u now)
       (TaskModal.newComment mst) (TaskModal.isEditing mst),
     [TaskModal.OnUpdate (TaskModal.merged (TaskModal.editedTask mst) u now)]).
Proof. reflexivity. Qed.



(** X11: the delete button does nothing when the confirmation is declined;
    when it is accepted the detail form closes whether the host deletes the
    task, fails to, or gave no delete callback, and a host with a callback is
    asked once, for the id of the task the form was opened with. *)
Theorem delete_click_closes_detail :
  forall (p : Props) (bst : State) (task : Task),
    runTaskModal p bst (TaskModal.deleteClick task false) = (bst, [])
    /\ fst (runTaskModal p bst (TaskModal.deleteClick task true))
       = setSelectedTask None bst
    /\ (onTaskDelete p = None ->
        snd (runTaskModal p bst (TaskModal.deleteClick task true)) = [])
    /\ (forall cb, onTaskDelete p = Some cb ->
        List.filter isHostCall
          (snd (runTaskModal p bst (TaskModal.deleteClick task true)))
        = [CallTaskDelete (task_id task)]).
Proof.
  intros p bst task. unfold runTaskModal, handleTaskDelete. simpl.
  unfold handleTaskDelete.
  split_and!.
  - reflexivity.
  - by destruct (onTaskDelete p).
  - by intros ->.
  - intros cb ->. simpl. by destruct (cb _).
Qed.

(** The delete button on [t1] at a host that is offline. *)
Lemma delete_click_host_offline :
  runTaskModal (failingUpdateProps [t1; t2]) (handleTaskClick initialState t1)
    (TaskModal.deleteClick t1 true)
  = (initialState,
     [CallTaskDelete "t1"; ConsoleError "Error deleting task:" "offline"])
  /\ List.filter isHostCall
       (snd (runTaskModal (failingUpdateProps [t1; t2])
               (handleTaskClick initialState t1) (TaskModal.deleteClick t1 true)))
     = [CallTaskDelete (task_id t1)].
Proof.
  split; [reflexivity|].
  destruct (delete_click_closes_detail (failingUpdateProps [t1; t2])
              (handleTaskClick initialState t1) t1) as (_ & _ & _ & H).
  apply (H (fun _ => Rejected "offline")). reflexivity.
Defined.

(** ** The create form on the board *)

Lemma handleSubmit_valid {JS : Builtins} (status : Status) (f : AddTaskModal.Form)
    (clock : nat -> Date) :
  trim (AddTaskModal.title f) <> EmptyString ->
  exists t, AddTaskModal.handleSubmit status f clock
            = [AddTaskModal.OnAdd t; AddTaskModal.OnClose]
            /\ task_id t = "task-" +:+ pretty (clock 0%nat).
Proof.
  intros H. apply truthy_true in H. unfold AddTaskModal.handleSubmit.
  rewrite H. simpl. eexists. split; reflexivity.
Qed.

(** X12: a submission with a title that is not blank closes the create
    form and writes no other cell, whether the host's create callback
    succeeds, fails or is missing. Without a callback nothing is invoked and
    the entered task is gone; with one, it is invoked once, and a failure is
    only logged. *)
Theorem valid_submission_closes_form {JS : Builtins} :
  forall (p : Props) (st : State) (f : AddTaskModal.Form) (clock : nat -> Date),
    trim (AddTaskModal.title f) <> EmptyString ->
    fst (submitAddTask p st f clock) = setIsAddTaskModalOpen false st
    /\ (onTaskCreate p = None -> snd (submitAddTask p st f clock) = [])
    /\ (forall cb, onTaskCreate p = Some cb ->
        exists t,
          AddTaskModal.OnAdd t
          ∈ AddTaskModal.handleSubmit (addTaskStatus st) f clock
          /\ snd (submitAddTask p st f clock)
             = tryAwait (CallTaskCreate t) (cb t) "Error creating task:").
Proof.
  intros p st f clock Hvalid.
  destruct (handleSubmit_valid (addTaskStatus st) f clock Hvalid) as (t & Hsub & _).
  unfold submitAddTask. rewrite Hsub. simpl. unfold handleTaskAdded.
  split_and!.
  - by destruct (onTaskCreate p).
  - by intros ->.
  - intros cb ->. exists t. split; [|reflexivity].
    apply list_elem_of_here.
Qed.

(** A valid form at a host that is offline: the form closes, the failure
    is logged. *)
Lemma valid_submission_host_offline :
  trim (AddTaskModal.title (sampleForm "  Ship " "   " S754_nan)) <> EmptyString
  /\ submitAddTask (failingUpdateProps [t1])
       (handleAddTask initialState in_review)
       (sampleForm "  Ship " "   " S754_nan) sampleClock
     = (setAddTaskStatus in_review initialState,
        [CallTaskCreate createdSample;
         ConsoleError "Error creating task:" "offline"])
  /\ fst (submitAddTask (failingUpdateProps [t1])
            (handleAddTask initialState in_review)
            (sampleForm "  Ship " "   " S754_nan) sampleClock)
     = setIsAddTaskModalOpen false (handleAddTask initialState in_review).
Proof.
  assert (H : trim (AddTaskModal.title (sampleForm "  Ship " "   " S754_nan))
              <> EmptyString) by discriminate.
  split_and!; [exact H | reflexivity |].
  exact (proj1 (valid_submission_closes_form (failingUpdateProps [t1])
                  (handleAddTask initialState in_review)
                  (sampleForm "  Ship " "   " S754_nan) sampleClock H)).
Defined.

(** X13: the id of a created task is "task-" followed by the decimal
    reading of the clock, so two created tasks have the same id exactly when
    the clock read the same millisecond for both, whatever was entered. *)
Theorem created_ids_follow_the_clock {JS : Builtins} :
  forall (s s' : Status) (f f' : AddTaskModal.Form) (clock clock' : nat -> Date)
         (t t' : Task),
    AddTaskModal.OnAdd t ∈ AddTaskModal.handleSubmit s f clock ->
    AddTaskModal.OnAdd t' ∈ AddTaskModal.handleSubmit s' f' clock' ->
    (task_id t = task_id t' <-> clock 0%nat = clock' 0%nat).
Proof.
  intros s s' f f' clock clock' t t' Ht Ht'.
  apply handleSubmit_emits in Ht as [Hv Ht].
  apply handleSubmit_emits in Ht' as [Hv' Ht'].
  apply truthy_true in Hv, Hv'.
  destruct (handleSubmit_valid s f clock Hv) as (x & Hx & Hid).
  destruct (handleSubmit_valid s' f' clock' Hv') as (x' & Hx' & Hid').
  rewrite Ht in Hx. rewrite Ht' in Hx'.
  injection Hx as <-. injection Hx' as <-.
  rewrite Hid, Hid'. split.
  - intros H. simpl in H. injection H as H. by apply (inj pretty).
  - by intros ->.
Qed.

(** Two different forms submitted in the same millisecond. *)
Lemma created_ids_same_millisecond :
  task_id createdSample = task_id createdSample2
  <-> sampleClock 0%nat = sampleClock 0%nat.
Proof.
  apply (created_ids_follow_the_clock in_review todo
           (sampleForm "  Ship " "   " S754_nan)
           (sampleForm "Other" " Bob" (S754_zero false))
           sampleClock sampleClock createdSample createdSample2).
  - apply list_elem_of_In. left. reflexivity.
  - apply list_elem_of_In. left. reflexivity.
Defined.

(** ** Labels *)

Lemma hasLabel_spec (i : string) (ls : list Label) :
  existsb (fun l => bool_decide (label_id l = i)) ls = true
  <-> i ∈ map label_id ls.
Proof.
  rewrite existsb_exists, list_elem_of_fmap. split.
  - intros (l & Hin & Hl). apply bool_decide_eq_true in Hl.
    exists l. split; [done | by apply list_elem_of_In].
  - intros (l & -> & Hin). exists l. split; [by apply list_elem_of_In|].
    by apply bool_decide_eq_true.
Qed.

Lemma hasLabel_false (i : string) (ls : list Label) :
  existsb (fun l => bool_decide (label_id l = i)) ls = false
  <-> i ∉ map label_id ls.
Proof.
  rewrite <- hasLabel_spec.
  destruct (existsb _ ls); split; congruence.
Qed.

Lemma elem_of_withoutLabel (i : string) (ls : list Label) (l : Label) :
  l ∈ List.filter (fun l => negb (bool_decide (label_id l = i))) ls
  <-> l ∈ ls /\ label_id l <> i.
Proof.
  by rewrite elem_of_filter_bool, negb_true_iff, bool_decide_eq_false.
Qed.

Lemma withoutLabel_absent (i : string) (ls : list Label) :
  i ∉ map label_id ls ->
  List.filter (fun l => negb (bool_decide (label_id l = i))) ls = ls.
Proof.
  intros Hno. apply filter_all. intros l Hl.
  apply negb_true_iff, bool_decide_eq_false. intros Heq.
  apply Hno. rewrite <- Heq. apply list_elem_of_fmap. by exists l.
Qed.

Lemma NoDup_map_filter {A B} (f : A -> B) (g : A -> bool) (l : list A) :
  NoDup (map f l) -> NoDup (map f (List.filter g l)).
Proof.
  induction l as [|x l IH]; simpl; [done|].
  intros Hnd. apply NoDup_cons in Hnd as [Hx Hnd].
  destruct (g x); simpl; [|by apply IH].
  apply NoDup_cons. split; [|by apply IH].
  intros Hin. apply Hx.
  apply list_elem_of_fmap in Hin as (y & Hy & Hin).
  apply elem_of_filter_bool in Hin as [Hin _].
  apply list_elem_of_fmap. by exists y.
Qed.

(** X14: toggling a label in the create form turns its id from selected
    to not selected and back, leaves every label with another id as it was,
    and keeps a selection free of repeated ids free of them. *)
Theorem toggleLabel_flips_one_id :
  forall (prev : list Label) (label : Label),
    (label_id label ∈ map label_id (AddTaskModal.toggleLabel prev label)
     <-> label_id label ∉ map label_id prev)
    /\ (forall l, label_id l <> label_id label ->
          (l ∈ AddTaskModal.toggleLabel prev label <-> l ∈ prev))
    /\ (NoDup (map label_id prev) ->
        NoDup (map label_id (AddTaskModal.toggleLabel prev label))).
Proof.
  intros prev label. unfold AddTaskModal.toggleLabel.
  destruct (existsb _ prev) eqn:Hhas.
  - apply hasLabel_spec in Hhas. split_and!.
    + split; [|done]. intros Hin.
      apply list_elem_of_fmap in Hin as (l & Hl & Hin).
      apply elem_of_withoutLabel in Hin as [_ Hne]. by destruct Hne.
    + intros l Hne. rewrite elem_of_withoutLabel. tauto.
    + apply NoDup_map_filter.
  - apply hasLabel_false in Hhas. split_and!.
    + split; [done|]. intros _. rewrite map_app. apply elem_of_app. right.
      apply list_elem_of_here.
    + intros l Hne. rewrite elem_of_app, list_elem_of_singleton.
      split; [|tauto]. intros [H| ->]; [done|]. by destruct Hne.
    + intros Hnd. rewrite map_app. apply NoDup_app. split_and!; [done| |].
      * intros i Hi Hi'. simpl in Hi'.
        apply list_elem_of_singleton in Hi'. by subst.
      * apply NoDup_singleton.
Qed.

(** Selecting "UI" beside "Bug". *)
Lemma toggleLabel_select_ui :
  AddTaskModal.toggleLabel [labelBug] labelUi = [labelBug; labelUi]
  /\ NoDup (map label_id (AddTaskModal.toggleLabel [labelBug] labelUi)).
Proof.
  split; [reflexivity|].
  destruct (toggleLabel_flips_one_id [labelBug] labelUi) as (_ & _ & H).
  apply H. simpl. apply NoDup_singleton.
Defined.

(** X15: toggling twice a label whose id was not selected gives back the
    selection; toggling twice one whose id was selected does not: the labels
    with that id are gone from their places and the clicked label is at the
    end. *)
Theorem toggleLabel_twice :
  forall (prev : list Label) (label : Label),
    (label_id label ∉ map label_id prev ->
     AddTaskModal.toggleLabel (AddTaskModal.toggleLabel prev label) label = prev)
    /\ (label_id label ∈ map label_id prev ->
        AddTaskModal.toggleLabel (AddTaskModal.toggleLabel prev label) label
        = List.filter (fun l => negb (bool_decide (label_id l = label_id label)))
            prev ++ [label]).
Proof.
  intros prev label. split; intros Hin.
  - unfold AddTaskModal.toggleLabel at 2.
    rewrite (proj2 (hasLabel_false _ _) Hin).
    unfold AddTaskModal.toggleLabel.
    rewrite (proj2 (hasLabel_spec _ _)).
    + rewrite List.filter_app. simpl.
      rewrite bool_decide_eq_true_2 by done. simpl.
      rewrite app_nil_r. by apply withoutLabel_absent.
    + rewrite map_app. apply elem_of_app. right. apply list_elem_of_here.
  - unfold AddTaskModal.toggleLabel at 2.
    rewrite (proj2 (hasLabel_spec _ _) Hin).
    unfold AddTaskModal.toggleLabel.
    rewrite (proj2 (hasLabel_false _ _)); [reflexivity|].
    intros H. apply list_elem_of_fmap in H as (l & Hl & H).
    apply elem_of_withoutLabel in H as [_ Hne]. by destruct Hne.
Qed.

(** "UI" toggled twice beside "Bug", and "Bug" toggled twice before "UI". *)
Lemma toggleLabel_twice_sample :
  AddTaskModal.toggleLabel (AddTaskModal.toggleLabel [labelBug] labelUi) labelUi
  = [labelBug]
  /\ AddTaskModal.toggleLabel
       (AddTaskModal.toggleLabel [labelBug; labelUi] labelBug) labelBug
     = [labelUi; labelBug].
Proof.
  split.
  - apply (proj1 (toggleLabel_twice [labelBug] labelUi)).
    simpl. rewrite list_elem_of_singleton. discriminate.
  - rewrite (proj2 (toggleLabel_twice [labelBug; labelUi] labelBug)).
    + reflexivity.
    + simpl. apply list_elem_of_here.
Defined.

(** X16: a click on a label in the detail form emits the edited task with
    its labels toggled as in the create form and the fresh time stamp; no
    other field changes, and the form then shows the emitted task. *)
Theorem labelClick_toggles_labels_only :
  forall (st : TaskModal.State) (label : Label) (now : Date),
    exists t,
      TaskModal.labelClick st label now
      = (TaskModal.mkState t (TaskModal.newComment st) (TaskModal.isEditing st),
         [TaskModal.OnUpdate t])
      /\ task_labels t
         = AddTaskModal.toggleLabel (task_labels (TaskModal.editedTask st)) label
      /\ task_updatedAt t = now
      /\ forall fld, fld <> F_labels -> fld <> F_updatedAt ->
           getField fld t = getField fld (TaskModal.editedTask st).
Proof.
  intros st label now. unfold TaskModal.labelClick.
  rewrite update_emits. eexists. split_and!.
  - reflexivity.
  - reflexivity.
  - reflexivity.
  - intros fld H1 H2. by destruct fld.
Qed.

(** ** Comments *)

(** X17: adding a comment whose text is blank does nothing at all, the
    draft included. Otherwise the form emits the edited task once, with one
    comment more at the end of its comments, by "Current User" and with the
    draft as it was typed, not trimmed; the draft is emptied, and no field
    but the comments and the time stamp changes. *)
Theorem handleAddComment_appends_one {JS : Builtins} :
  forall (st : TaskModal.State) (clock : nat -> Date),
    (trim (TaskModal.newComment st) = EmptyString ->
     TaskModal.handleAddComment st clock = (st, []))
    /\ (trim (TaskModal.newComment st) <> EmptyString ->
        exists t c,
          TaskModal.handleAddComment st clock
          = (TaskModal.mkState t EmptyString (TaskModal.isEditing st),
             [TaskModal.OnUpdate t])
          /\ task_comments t = task_comments (TaskModal.editedTask st) ++ [c]
          /\ comment_content c = TaskModal.newComment st
          /\ comment_author c = "Current User"
          /\ forall fld, fld <> F_comments -> fld <> F_updatedAt ->
               getField fld t = getField fld (TaskModal.editedTask st)).
Proof.
  intros st clock. unfold TaskModal.handleAddComment. split.
  - intros H. by rewrite H.
  - intros H. apply truthy_true in H. rewrite H. cbn [negb].
    rewrite update_emits. do 2 eexists. split_and!.
    + reflexivity.
    + reflexivity.
    + reflexivity.
    + reflexivity.
    + intros fld H1 H2. by destruct fld.
Qed.

(** The draft " ok " on [t1], and a draft of blanks. *)
Lemma handleAddComment_sample :
  TaskModal.handleAddComment (detailOf t1 "   ") sampleClock
  = (detailOf t1 "   ", [])
  /\ exists t c,
       TaskModal.handleAddComment (detailOf t1 " ok ") sampleClock
       = (TaskModal.mkState t EmptyString false, [TaskModal.OnUpdate t])
       /\ task_comments t = task_comments t1 ++ [c]
       /\ comment_content c = " ok ".
Proof.
  destruct (handleAddComment_appends_one (detailOf t1 "   ") sampleClock)
    as [Hblank _].
  destruct (handleAddComment_appends_one (detailOf t1 " ok ") sampleClock)
    as [_ Hadd].
  split.
  - apply Hblank. reflexivity.
  - destruct Hadd as (t & c & H1 & H2 & H3 & _ & _); [discriminate|].
    exists t, c. split_and!; assumption.
Defined.

(** "Bug" clicked on a task that has it. *)
Lemma labelClick_removes_bug :
  exists t,
    TaskModal.labelClick (detailOf t1Bug EmptyString) labelBug 9%Z
    = (detailOf t EmptyString, [TaskModal.OnUpdate t])
    /\ task_labels t = []
    /\ getField F_title t = getField F_title t1Bug.
Proof.
  destruct (labelClick_toggles_labels_only (detailOf t1Bug EmptyString)
              labelBug 9%Z) as (t & Hc & Hl & _ & Hframe).
  exists t. split_and!.
  - exact Hc.
  - rewrite Hl. reflexivity.
  - apply Hframe; discriminate.
Defined.

(** ** The example host *)

Lemma replaceById_ids (id : string) (b : Task) (prev : list Task) :
  task_id b = id ->
  map task_id (App.replaceById id b prev) = map task_id prev.
Proof.
  intros Hb. unfold App.replaceById. rewrite map_map.
  apply map_ext. intros t. case_bool_decide; congruence.
Qed.

Lemma findTask_cons (t : Task) (T : list Task) (u : UniqueIdentifier) :
  findTask (t :: T) u = if idIs u (task_id t) then Some t else findTask T u.
Proof. reflexivity. Qed.

Lemma idIs_IdString (a b : string) : idIs (IdString a) b = bool_decide (b = a).
Proof. simpl. apply bool_decide_ext. split; congruence. Qed.

Lemma findTask_replaceById (id : string) (b : Task) (prev : list Task) :
  task_id b = id ->
  findTask (App.replaceById id b prev) (IdString id)
  = (fun _ => b) <$> findTask prev (IdString id).
Proof.
  intros Hb. induction prev as [|x prev IH]; [reflexivity|].
  unfold App.replaceById in *. cbn [map].
  rewrite !findTask_cons, !idIs_IdString.
  destruct (decide (task_id x = id)) as [Hx|Hx].
  - rewrite (bool_decide_eq_true_2 (task_id x = id)) by done.
    by rewrite bool_decide_eq_true_2.
  - rewrite (bool_decide_eq_false_2 (task_id x = id)) by done.
    by rewrite bool_decide_eq_false_2.
Qed.


Lemma elem_of_replaceById (id : string) (b : Task) (prev : list Task) (x : Task) :
  x ∈ App.replaceById id b prev ->
  x = b \/ (x ∈ prev /\ task_id x <> id).
Proof.
  unfold App.replaceById. intros H.
  apply list_elem_of_fmap in H as (y & -> & Hy).
  case_bool_decide; [by left | by right].
Qed.

Lemma replaceById_absent (id : string) (b : Task) (prev : list Task) :
  (forall x, x ∈ prev -> task_id x <> id) -> App.replaceById id b prev = prev.
Proof.
  intros Hno. unfold App.replaceById.
  induction prev as [|x prev IH]; [reflexivity|].
  simpl. rewrite bool_decide_eq_false_2 by (apply Hno, list_elem_of_here).
  f_equal. apply IH. intros y Hy. apply Hno. by apply list_elem_of_further.
Qed.

Lemma elem_of_removeById (id : string) (prev : list Task) (x : Task) :
  x ∈ App.removeById id prev <-> x ∈ prev /\ task_id x <> id.
Proof.
  unfold App.removeById.
  by rewrite elem_of_filter_bool, negb_true_iff, bool_decide_eq_false.
Qed.

Lemma removeById_absent (id : string) (prev : list Task) :
  (forall x, x ∈ prev -> task_id x <> id) -> App.removeById id prev = prev.
Proof.
  intros Hno. apply filter_all. intros x Hx.
  apply negb_true_iff, bool_decide_eq_false. by apply Hno.
Qed.

Lemma findTask_removeById (id : string) (prev : list Task) :
  findTask (App.removeById id prev) (IdString id) = None.
Proof.
  apply findTask_None. intros t Ht Heq.
  apply elem_of_removeById in Ht as [_ Hne]. congruence.
Qed.



Lemma after_move (tasks : list Task) (st : State) (taskId : string) (t : Task)
    (s : Status) (now : Date) :
  findTask tasks (IdString taskId) = Some t ->
  task_status t <> s ->
  App.after tasks now
    (snd (handleDragEnd (App.boardProps tasks) st
            (mkDragEnd (IdString taskId) (Some (IdString (statusId s))))))
  = App.replaceById taskId (App.moved t s now) tasks.
Proof.
  intros Ht Hne.
  rewrite (handleDragEnd_resolved (App.boardProps tasks) st taskId _ t s Ht
             (resolveNewStatus_column _ s)).
  rewrite bool_decide_eq_false_2 by done.
  unfold App.after. simpl. unfold App.handleTaskMove. by rewrite Ht.
Qed.

(** X19: board and host together move the card. When a task is dropped on
    the column of another status, the host's collection afterwards has the
    same ids in the same order, the id of the task resolves to the task with
    the new status, the group of the new status holds it, and the group of
    the old status holds no task with that id. Dropped on the column of its
    own status, the collection is what it was. *)
Theorem drag_with_host_moves_the_card :
  forall (tasks : list Task) (st : State) (taskId : string) (t : Task)
         (s : Status) (now : Date),
    findTask tasks (IdString taskId) = Some t ->
    let tasks' :=
      App.after tasks now
        (snd (handleDragEnd (App.boardProps tasks) st
                (mkDragEnd (IdString taskId) (Some (IdString (statusId s)))))) in
    (task_status t = s -> tasks' = tasks)
    /\ (task_status t <> s ->
        map task_id tasks' = map task_id tasks
        /\ findTask tasks' (IdString taskId) = Some (App.moved t s now)
        /\ (exists g, tasksByStatus tasks' !! s = Some g
                      /\ App.moved t s now ∈ g)
        /\ (forall g x, tasksByStatus tasks' !! task_status t = Some g ->
              x ∈ g -> task_id x <> taskId)).
Proof.
  intros tasks st taskId t s now Ht tasks'. subst tasks'.
  assert (Hid : task_id (App.moved t s now) = taskId).
  { apply findTask_Some in Ht as [_ Ht]. simpl. congruence. }
  split.
  - intros Hsame.
    rewrite (handleDragEnd_resolved (App.boardProps tasks) st taskId _ t s Ht
               (resolveNewStatus_column _ s)).
    by rewrite bool_decide_eq_true_2.
  - intros Hne. rewrite !(after_move tasks st taskId t s now Ht Hne).
    assert (Hfound : findTask (App.replaceById taskId (App.moved t s now) tasks)
                       (IdString taskId) = Some (App.moved t s now)).
    { rewrite findTask_replaceById by done. by rewrite Ht. }
    split_and!.
    + by apply replaceById_ids.
    + exact Hfound.
    + eexists. split; [apply tasksByStatus_lookup|].
      apply elem_of_withStatus. split; [|reflexivity].
      by destruct (findTask_Some _ _ _ Hfound) as [Hin _].
    + intros g x Hg Hx. rewrite tasksByStatus_lookup in Hg.
      injection Hg as <-. apply elem_of_withStatus in Hx as [Hx Hst].
      apply elem_of_replaceById in Hx as [-> | [_ Hx]]; [|done].
      simpl in Hst. congruence.
Qed.

(** "t1" dropped on "done" at the example host. *)
Lemma drag_with_host_t1_done :
  App.after [t1; t2] 9%Z
    (snd (handleDragEnd (App.boardProps [t1; t2]) initialState
            (mkDragEnd (IdString "t1") (Some (IdString "done")))))
  = [App.moved t1 done 9%Z; t2]
  /\ findTask
       (App.after [t1; t2] 9%Z
          (snd (handleDragEnd (App.boardProps [t1; t2]) initialState
                  (mkDragEnd (IdString "t1") (Some (IdString (statusId done)))))))
       (IdString "t1")
     = Some (App.moved t1 done 9%Z).
Proof.
  split; [reflexivity|].
  destruct (drag_with_host_moves_the_card [t1; t2] initialState "t1" t1 done
              9%Z eq_refl) as [_ H].
  destruct H as (_ & Hfound & _); [discriminate|]. exact Hfound.
Defined.

(** X20: after the host's delete handler no task has the id: the handler
    removes every task with it and nothing else, keeps the others in order,
    and applied again changes nothing. *)
Theorem host_delete_removes_the_id :
  forall (prev : list Task) (taskId : string),
    findTask (App.handleTaskDelete prev taskId) (IdString taskId) = None
    /\ (forall t, t ∈ App.handleTaskDelete prev taskId
                  <-> t ∈ prev /\ task_id t <> taskId)
    /\ App.handleTaskDelete prev taskId `sublist_of` prev
    /\ App.handleTaskDelete (App.handleTaskDelete prev taskId) taskId
       = App.handleTaskDelete prev taskId.
Proof.
  intros prev taskId. unfold App.handleTaskDelete. split_and!.
  - apply findTask_removeById.
  - intros t. apply elem_of_removeById.
  - apply filter_sublist.
  - apply removeById_absent. intros x Hx.
    by apply elem_of_removeById in Hx as [_ ?].
Qed.

Lemma withStatus_app (s : Status) (T U : list Task) :
  withStatus s (T ++ U) = withStatus s T ++ withStatus s U.
Proof. apply List.filter_app. Qed.

Lemma removeById_snoc (t : Task) (prev : list Task) :
  App.removeById (task_id t) (prev ++ [t]) = App.removeById (task_id t) prev.
Proof.
  unfold App.removeById. rewrite List.filter_app. simpl.
  rewrite bool_decide_eq_true_2 by done. simpl. apply app_nil_r.
Qed.

(** X21: board and host together add the card. A submission with a title
    that is not blank leaves the host with the collection it had followed by
    one new task, the board then shows that task last in the column the form
    was opened for, and deleting it again gives back the collection when no
    other task has its id. *)
Theorem create_with_host_appends_the_card {JS : Builtins} :
  forall (tasks : list Task) (st : State) (f : AddTaskModal.Form)
         (clock : nat -> Date) (now : Date),
    trim (AddTaskModal.title f) <> EmptyString ->
    exists t,
      App.after tasks now (snd (submitAddTask (App.boardProps tasks) st f clock))
      = tasks ++ [t]
      /\ task_status t = addTaskStatus st
      /\ tasksByStatus (tasks ++ [t]) !! addTaskStatus st
         = Some (withStatus (addTaskStatus st) tasks ++ [t])
      /\ ((forall x, x ∈ tasks -> task_id x <> task_id t) ->
          App.handleTaskDelete (tasks ++ [t]) (task_id t) = tasks).
Proof.
  intros tasks st f clock now Hvalid.
  apply truthy_true in Hvalid.
  unfold submitAddTask, AddTaskModal.handleSubmit. rewrite Hvalid.
  cbn [negb fold_left onAddTaskModal]. unfold handleTaskAdded. simpl.
  eexists. split_and!.
  - reflexivity.
  - reflexivity.
  - rewrite tasksByStatus_lookup, withStatus_app. simpl.
    by rewrite bool_decide_eq_true_2.
  - intros Hfresh. unfold App.handleTaskDelete.
    rewrite removeById_snoc. by apply removeById_absent.
Qed.

(** The form opened on "in-review" and submitted at the example host. *)
Lemma create_with_host_sample :
  exists t,
    App.after [t1; t5] 9%Z
      (snd (submitAddTask (App.boardProps [t1; t5])
              (handleAddTask initialState in_review)
              (sampleForm "  Ship " "   " S754_nan) sampleClock))
    = [t1; t5] ++ [t]
    /\ tasksByStatus ([t1; t5] ++ [t]) !! in_review = Some ([t5] ++ [t]).
Proof.
  destruct (create_with_host_appends_the_card [t1; t5]
              (handleAddTask initialState in_review)
              (sampleForm "  Ship " "   " S754_nan) sampleClock 9%Z)
    as (t & Hafter & _ & Hgroup & _); [discriminate|].
  exists t. split; [exact Hafter | exact Hgroup].
Defined.

(** X22: the host's update handler replaces in place and never inserts:
    the ids and their order stay, a task whose id is not in the collection
    leaves it unchanged, and otherwise the id resolves to the new task. *)
Theorem host_update_replaces_in_place :
  forall (prev : list Task) (updatedTask : Task),
    map task_id (App.handleTaskUpdate prev updatedTask) = map task_id prev
    /\ ((forall x, x ∈ prev -> task_id x <> task_id updatedTask) ->
        App.handleTaskUpdate prev updatedTask = prev)
    /\ (forall old, findTask prev (IdString (task_id updatedTask)) = Some old ->
        findTask (App.handleTaskUpdate prev updatedTask)
          (IdString (task_id updatedTask)) = Some updatedTask).
Proof.
  intros prev u. unfold App.handleTaskUpdate. split_and!.
  - by apply replaceById_ids.
  - apply replaceById_absent.
  - intros old Hold. rewrite findTask_replaceById by done. by rewrite Hold.
Qed.

(** An update of [t1] and an update of a task that was deleted meanwhile. *)
Lemma host_update_sample :
  App.handleTaskUpdate [t2; t5] t1Bug = [t2; t5]
  /\ findTask (App.handleTaskUpdate [t1; t2] t1Bug) (IdString (task_id t1Bug))
     = Some t1Bug.
Proof.
  destruct (host_update_replaces_in_place [t2; t5] t1Bug) as (_ & Habs & _).
  destruct (host_update_replaces_in_place [t1; t2] t1Bug) as (_ & _ & Hrep).
  split.
  - apply Habs. intros x Hx.
    apply elem_of_cons in Hx as [->|Hx]; [discriminate|].
    apply list_elem_of_singleton in Hx. subst x. discriminate.
  - apply (Hrep t1). reflexivity.
Defined.

(** ** The REST hook *)

Lemma findTask_None_inv (T : list Task) (id : string) (x : Task) :
  findTask T (IdString id) = None -> x ∈ T -> task_id x <> id.
Proof.
  unfold findTask. intros Hnone Hx Heq.
  apply list_elem_of_In in Hx.
  pose proof (find_none _ _ Hnone x Hx) as Hf. cbv beta in Hf.
  rewrite idIs_IdString, bool_decide_eq_true_2 in Hf; done.
Qed.

(** When the [try] block of an operation throws, and with what message. *)
Lemma attempt_fails (res : RestAPI.Fetch) (failed : string) (wantBody : bool)
    (m : string) :
  RestAPI.attempt res failed wantBody = inr m <->
  (res = RestAPI.NetworkError m
   \/ (exists b, res = RestAPI.Response false b /\ m = failed)
   \/ (wantBody = true /\ res = RestAPI.Response true (RestAPI.Malformed m))).
Proof.
  unfold RestAPI.attempt. split.
  - destruct res as [m'|[] b]; [| |].
    + intros [= ->]. by left.
    + destruct wantBody; [|discriminate].
      destruct b; [discriminate|]. intros [= ->]. right; right. done.
    + intros [= <-]. right; left. by exists b.
  - intros [-> | [(b & -> & ->) | (-> & ->)]]; reflexivity.
Qed.

Lemma replaceById_twice (id : string) (a b : Task) (prev : list Task) :
  task_id b = id ->
  App.replaceById id a (App.replaceById id b prev) = App.replaceById id a prev.
Proof.
  intros Hb. unfold App.replaceById. rewrite map_map.
  apply map_ext. intros t.
  destruct (decide (task_id t = id)) as [Ht|Ht].
  - rewrite (bool_decide_eq_true_2 (task_id t = id)) by done.
    by rewrite bool_decide_eq_true_2.
  - rewrite (bool_decide_eq_false_2 (task_id t = id)) by done.
    by rewrite bool_decide_eq_false_2.
Qed.

Lemma replaceById_found_NoDup (id : string) (old : Task) (prev : list Task) :
  NoDup (map task_id prev) ->
  findTask prev (IdString id) = Some old ->
  App.replaceById id old prev = prev.
Proof.
  induction prev as [|x prev IH]; [done|].
  intros Hnd Hold. simpl in Hnd. apply NoDup_cons in Hnd as [Hx Hnd].
  rewrite findTask_cons, idIs_IdString in Hold.
  unfold App.replaceById in *. cbn [map].
  case_bool_decide as Hid.
  - injection Hold as <-. f_equal.
    apply replaceById_absent. intros y Hy Heq. apply Hx.
    rewrite Hid, <- Heq. apply list_elem_of_fmap. by exists y.
  - f_equal. by apply IH.
Qed.

Lemma removeById_found_Permutation (id : string) (d : Task) (prev : list Task) :
  NoDup (map task_id prev) ->
  findTask prev (IdString id) = Some d ->
  App.removeById id prev ++ [d] ≡ₚ prev.
Proof.
  induction prev as [|x prev IH]; [done|].
  intros Hnd Hd. simpl in Hnd. apply NoDup_cons in Hnd as [Hx Hnd].
  rewrite findTask_cons, idIs_IdString in Hd.
  unfold App.removeById in *. cbn [List.filter].
  case_bool_decide as Hid.
  - injection Hd as <-. cbn [negb].
    fold (App.removeById id prev).
    rewrite removeById_absent.
    + symmetry. apply Permutation_cons_append.
    + intros y Hy Heq. apply Hx.
      rewrite Hid, <- Heq. apply list_elem_of_fmap. by exists y.
  - cbn [negb]. simpl. constructor. by apply IH.
Qed.

(** X23: when the request of [createTask] fails, the optimistic task is
    taken out again together with every task that had the same id: the
    collection is the one before the call exactly when the id was new; the
    message is kept in [error] and the promise rejects. *)
Theorem rest_create_rollback :
  forall (h : RestAPI.Hook) (newTask : Task) (res : RestAPI.Fetch) (m : string),
    RestAPI.attempt res "Failed to create task" true = inr m ->
    RestAPI.createTask h newTask res
    = (RestAPI.mkHook (App.removeById (task_id newTask) (RestAPI.tasks h))
         (RestAPI.loading h) (Some m),
       Rejected m)
    /\ ((forall x, x ∈ RestAPI.tasks h -> task_id x <> task_id newTask) <->
        RestAPI.tasks (fst (RestAPI.createTask h newTask res)) = RestAPI.tasks h).
Proof.
  intros h t res m Hfail.
  assert (Heq : RestAPI.createTask h t res
                = (RestAPI.mkHook (App.removeById (task_id t) (RestAPI.tasks h))
                     (RestAPI.loading h) (Some m), Rejected m)).
  { unfold RestAPI.createTask. rewrite Hfail.
    unfold RestAPI.setError, RestAPI.setTasks. simpl.
    by rewrite removeById_snoc. }
  split; [exact Heq|].
  rewrite Heq. simpl. split.
  - apply removeById_absent.
  - intros Hsame x Hx. rewrite <- Hsame in Hx.
    by apply elem_of_removeById in Hx as [_ ?].
Qed.

(** A create that the server refuses, with a new id and with the id of
    [t1]. *)
Lemma rest_create_rollback_sample :
  RestAPI.tasks (fst (RestAPI.createTask (sampleHook [t1; t2]) t5
                        (RestAPI.Response false (RestAPI.Malformed "x"))))
  = [t1; t2]
  /\ RestAPI.createTask (sampleHook [t1; t2]) t1Bug
       (RestAPI.Response false (RestAPI.Malformed "x"))
     = (RestAPI.mkHook [t2] false (Some "Failed to create task"),
        Rejected "Failed to create task").
Proof.
  destruct (rest_create_rollback (sampleHook [t1; t2]) t5
              (RestAPI.Response false (RestAPI.Malformed "x"))
              "Failed to create task" eq_refl) as [_ Hiff].
  destruct (rest_create_rollback (sampleHook [t1; t2]) t1Bug
              (RestAPI.Response false (RestAPI.Malformed "x"))
              "Failed to create task" eq_refl) as [Heq _].
  split.
  - apply Hiff. intros x Hx.
    apply elem_of_cons in Hx as [->|Hx]; [discriminate|].
    apply list_elem_of_singleton in Hx. subst x. discriminate.
  - exact Heq.
Defined.

(** X24: when the request of [deleteTask] fails, the deleted task is put
    back at the end of the collection, not at its place: with unique ids the
    collection has the tasks it had, in another order unless the task was the
    last. When no task had the id nothing is put back. *)
Theorem rest_delete_rollback :
  forall (h : RestAPI.Hook) (taskId : string) (res : RestAPI.Fetch) (m : string),
    RestAPI.attempt res "Failed to delete task" false = inr m ->
    (forall d, findTask (RestAPI.tasks h) (IdString taskId) = Some d ->
       RestAPI.tasks (fst (RestAPI.deleteTask h taskId res))
       = App.removeById taskId (RestAPI.tasks h) ++ [d]
       /\ (NoDup (map task_id (RestAPI.tasks h)) ->
           RestAPI.tasks (fst (RestAPI.deleteTask h taskId res))
           ≡ₚ RestAPI.tasks h))
    /\ (findTask (RestAPI.tasks h) (IdString taskId) = None ->
        RestAPI.tasks (fst (RestAPI.deleteTask h taskId res)) = RestAPI.tasks h)
    /\ snd (RestAPI.deleteTask h taskId res) = Rejected m.
Proof.
  intros h taskId res m Hfail. unfold RestAPI.deleteTask. rewrite Hfail.
  split_and!.
  - intros d Hd. rewrite Hd. simpl. split; [reflexivity|].
    intros Hnd. by apply removeById_found_Permutation.
  - intros Hno. rewrite Hno. simpl. apply removeById_absent.
    intros x Hx. by apply (findTask_None_inv _ _ _ Hno).
  - reflexivity.
Qed.

(** The delete of [t1] fails: [t1] comes back behind [t2]. *)
Lemma rest_delete_rollback_sample :
  RestAPI.tasks (fst (RestAPI.deleteTask (sampleHook [t1; t2]) "t1"
                        (RestAPI.NetworkError "offline")))
  = [t2; t1].
Proof.
  destruct (rest_delete_rollback (sampleHook [t1; t2]) "t1"
              (RestAPI.NetworkError "offline") "offline" eq_refl)
    as (Hfound & _ & _).
  destruct (Hfound t1 eq_refl) as [Heq _]. exact Heq.
Defined.

(** X25: when the request of [updateTask] fails and the ids of the
    collection are unique, the collection is exactly the one before the
    call; the message is kept in [error] and the promise rejects. *)
Theorem rest_update_rollback :
  forall (h : RestAPI.Hook) (updatedTask : Task) (res : RestAPI.Fetch)
         (m : string),
    RestAPI.attempt res "Failed to update task" true = inr m ->
    NoDup (map task_id (RestAPI.tasks h)) ->
    RestAPI.updateTask h updatedTask res
    = (RestAPI.mkHook (RestAPI.tasks h) (RestAPI.loading h) (Some m), Rejected m).
Proof.
  intros h u res m Hfail Hnd. unfold RestAPI.updateTask. rewrite Hfail.
  destruct (findTask (RestAPI.tasks h) (IdString (task_id u))) as [old|] eqn:Hold.
  - unfold RestAPI.setError, RestAPI.setTasks. simpl.
    rewrite replaceById_twice by done.
    by rewrite replaceById_found_NoDup.
  - unfold RestAPI.setError, RestAPI.setTasks. simpl.
    rewrite replaceById_absent; [done|].
    intros x Hx. by apply (findTask_None_inv _ _ _ Hold).
Qed.

(** An update of [t1] that the server refuses. *)
Lemma rest_update_rollback_sample :
  RestAPI.updateTask (sampleHook [t1; t2]) t1Bug
    (RestAPI.Response false (RestAPI.Malformed "x"))
  = (RestAPI.mkHook [t1; t2] false (Some "Failed to update task"),
     Rejected "Failed to update task").
Proof.
  apply (rest_update_rollback (sampleHook [t1; t2]) t1Bug
           (RestAPI.Response false (RestAPI.Malformed "x"))
           "Failed to update task" eq_refl).
  simpl. apply NoDup_cons. split; [|apply NoDup_singleton].
  rewrite list_elem_of_singleton. discriminate.
Defined.



